(** * Fitness-tracker calculator ([homework.py]): model and verified properties

    The program computes distance, mean speed and spent calories for three
    kinds of training sessions and renders a one-line report.  Its numbers
    are Python numbers: unbounded [int]s and binary64 [float]s.  The model
    below keeps both, with the conversions, roundings and exceptions of the
    Python operators the program applies to them. *)

From Stdlib Require Import ZArith List String Ascii Bool Lia Floats.
From Stdlib Require Import DecimalString.
Import ListNotations.

Set Warnings "-inexact-float".

(* ================================================================== *)
(** * Python runtime: exceptions, numbers, arithmetic *)
(* ================================================================== *)

Module Py.

(** Exceptions the program can meet.  Built-in exceptions are kept by
    class; [ValueError] carries the [args] tuple its raiser builds. *)
Inductive exn : Type :=
| ZeroDivisionError
| OverflowError
| TypeError
| AttributeError
| ValueError (args : list string).

(** Outcome of evaluating an expression: a value, or a raised exception. *)
Inductive res (A : Type) : Type :=
| Ok (a : A)
| Raise (e : exn).

Arguments Ok {A} a.
Arguments Raise {A} e.

Definition bind {A B : Type} (m : res A) (k : A -> res B) : res B :=
  match m with
  | Ok a => k a
  | Raise e => Raise e
  end.

Definition fmap {A B : Type} (f : A -> B) (m : res A) : res B :=
  bind m (fun a => Ok (f a)).

Definition is_ok {A : Type} (m : res A) : bool :=
  match m with
  | Ok _ => true
  | Raise _ => false
  end.

(** [m] raises nothing outside [P]. *)
Definition raises_only {A : Type} (P : exn -> Prop) (m : res A) : Prop :=
  forall e, m = Raise e -> P e.

Declare Scope py_scope.
Delimit Scope py_scope with py.

Notation "x <- m ;; k" := (bind m (fun x => k))
  (at level 61, m at next level, right associativity) : py_scope.

Local Open Scope py_scope.
Local Open Scope string_scope.

(** A Python number: an [int] of any size or a binary64 [float]. *)
Inductive num : Type :=
| Int (z : Z)
| Float (f : float).

(** [float(n)] for an [int]: the nearest binary64, ties to even;
    [OverflowError] when that would be an infinity. *)
Definition int_to_float (z : Z) : res float :=
  match binary_normalize prec emax z 0 false with
  | S754_infinity _ => Raise OverflowError
  | sf => Ok (SF2Prim sf)
  end.

Definition to_float (x : num) : res float :=
  match x with
  | Int z => int_to_float z
  | Float f => Ok f
  end.

(** An [int] as an unrounded binary number, for the exact quotient. *)
Definition Z2SF (z : Z) : spec_float :=
  match z with
  | Z0 => S754_zero false
  | Zpos p => S754_finite false p 0
  | Zneg p => S754_finite true p 0
  end.

(** [a / b] on two [int]s: the exact quotient rounded once. *)
Definition int_true_divide (a b : Z) : res float :=
  if (b =? 0)%Z then Raise ZeroDivisionError
  else match SFdiv prec emax (Z2SF a) (Z2SF b) with
       | S754_infinity _ => Raise OverflowError
       | sf => Ok (SF2Prim sf)
       end.

(** [a / b] on two [float]s: Python checks the divisor before dividing. *)
Definition float_div (a b : float) : res float :=
  if (b =? 0)%float then Raise ZeroDivisionError else Ok (a / b)%float.

(** The binary operators.  Two [int]s stay exact under [*] and [+]; in
    every mixed case both operands are converted to [float], left first. *)
Definition py_mul (a b : num) : res num :=
  match a, b with
  | Int x, Int y => Ok (Int (x * y))
  | _, _ => x <- to_float a ;; y <- to_float b ;; Ok (Float (x * y))
  end.

Definition py_add (a b : num) : res num :=
  match a, b with
  | Int x, Int y => Ok (Int (x + y))
  | _, _ => x <- to_float a ;; y <- to_float b ;; Ok (Float (x + y))
  end.

Definition py_truediv (a b : num) : res num :=
  match a, b with
  | Int x, Int y => q <- int_true_divide x y ;; Ok (Float q)
  | _, _ => x <- to_float a ;; y <- to_float b ;;
            q <- float_div x y ;; Ok (Float q)
  end.

(** The operators on outcomes: the left operand is evaluated first, then
    the right one, then the operator is applied; the first exception wins. *)
Definition lift2 (op : num -> num -> res num) (a b : res num) : res num :=
  x <- a ;; y <- b ;; op x y.

Definition lit (n : num) : res num := Ok n.

(** ** [x ** 2] *)

(** What the C library reports beside the value of [pow]. *)
Inductive errno : Type := ENONE | ERANGE | EDOM.

Section FloatPow.

(** The platform's [pow]; the language leaves its last-bit accuracy to
    the C library, so the model takes it as given. *)
Variable libm_pow : float -> float -> float * errno.

(** [float.__pow__] at the exponent [2.0]: the special cases are settled
    before the C library is called; afterwards an infinite result counts
    as a range error and a range error on a zero result is forgiven. *)
Definition float_pow_2 (iv : float) : res float :=
  if is_nan iv then Ok iv
  else if is_infinity iv then Ok (abs iv)
  else if (iv =? 0)%float then Ok 0%float
  else
    let iv := if (iv <? 0)%float then (- iv)%float else iv in
    if (iv =? 1)%float then Ok 1%float
    else
      let (ix, err) := libm_pow iv 2%float in
      let err :=
        match err with
        | ENONE => if is_infinity ix then ERANGE else ENONE
        | ERANGE => if (ix =? 0)%float then ENONE else ERANGE
        | EDOM => EDOM
        end in
      match err with
      | ENONE => Ok ix
      | ERANGE => Raise OverflowError
      | EDOM => Raise (ValueError ["33"; "Numerical argument out of domain"])
      end.

(** [x ** 2] with the literal [int] exponent: exact on an [int] base, else
    the float power. *)
Definition py_pow_2 (a : num) : res num :=
  match a with
  | Int x => Ok (Int (x * x))
  | Float f => q <- float_pow_2 f ;; Ok (Float q)
  end.

Definition pow_2 (a : res num) : res num := x <- a ;; py_pow_2 x.

End FloatPow.

(** ** [format(x, '.pf')] *)

Definition digit_char (d : Z) : ascii := ascii_of_nat (48 + Z.to_nat d).

(** The last [p] decimal digits of [n], most significant first. *)
Fixpoint frac_digits (p : nat) (n : Z) : string :=
  match p with
  | O => EmptyString
  | S p' => frac_digits p' (n / 10) ++ String (digit_char (n mod 10)) EmptyString
  end.

Definition int_digits (n : Z) : string :=
  NilZero.string_of_uint (N.to_uint (Z.to_N n)).

(** The integer nearest to [n / d] ([d > 0]), ties to the even one. *)
Definition round_half_even (n d : Z) : Z :=
  let q := (n / d)%Z in
  match (2 * (n mod d) ?= d)%Z with
  | Lt => q
  | Gt => (q + 1)%Z
  | Eq => if Z.even q then q else (q + 1)%Z
  end.

(** [m * 2^e * 10^p] rounded to an integer: the digits of the rendering. *)
Definition scaled_round (p : nat) (m : positive) (e : Z) : Z :=
  let n := (Zpos m * 10 ^ Z.of_nat p)%Z in
  match e with
  | Zneg k => round_half_even n (2 ^ Zpos k)
  | _ => (n * 2 ^ e)%Z
  end.

Definition sign_str (s : bool) : string := if s then "-" else EmptyString.

Definition point_str (p : nat) : string :=
  match p with
  | O => EmptyString
  | S _ => "."
  end.

(** Fixed-point rendering of a [float] with [p] digits after the point,
    from its exact binary value.  Infinities and NaN have no digits. *)
Definition format_f (p : nat) (x : float) : string :=
  match Prim2SF x with
  | S754_nan => "nan"
  | S754_infinity s => sign_str s ++ "inf"
  | S754_zero s => sign_str s ++ "0" ++ point_str p ++ frac_digits p 0
  | S754_finite s m e =>
      let n := scaled_round p m e in
      let k := (10 ^ Z.of_nat p)%Z in
      sign_str s ++ int_digits (n / k) ++ point_str p
               ++ frac_digits p (n mod k)
  end.

(** A runtime value that can reach a report field: a number, or a class
    object (named by its [__name__]). *)
Inductive value : Type :=
| VNum (n : num)
| VType (name : string).

(** [format(v, '.pf')]: an [int] is converted to [float] first; a class
    object rejects every non-empty format specification. *)
Definition format_fixed (p : nat) (v : value) : res string :=
  match v with
  | VNum (Float f) => Ok (format_f p f)
  | VNum (Int z) => f <- int_to_float z ;; Ok (format_f p f)
  | VType _ => Raise TypeError
  end.

End Py.

Import Py.
Local Open Scope py_scope.
Local Open Scope string_scope.

Notation "a *! b" := (lift2 py_mul a b)
  (at level 40, left associativity) : py_scope.
Notation "a /! b" := (lift2 py_truediv a b)
  (at level 40, left associativity) : py_scope.
Notation "a +! b" := (lift2 py_add a b)
  (at level 50, left associativity) : py_scope.
Coercion lit : num >-> res.

(* ================================================================== *)
(** * The program *)
(* ================================================================== *)

(** ** [InfoMessage] *)

Module InfoMessage.

(** The dataclass.  [training_type] is declared [object]; the program
    only ever stores a class name there, so the model keeps a string.
    The four numeric fields are declared [float] but hold whatever they
    are given: an [int], a [float], or the class object the base
    [get_spent_calories] returns. *)
Record t : Type := new {
  training_type : string;
  duration : value;
  distance : value;
  speed : value;
  calories : value
}.

(** A format template: literal text and replacement fields.  [Str] is a
    field without format specification holding a string, [Fixed p] a
    field with the specification [.pf]. *)
Inductive piece : Type :=
| Lit (text : string)
| Str (field : t -> string)
| Fixed (p : nat) (field : t -> value).

Definition MESSAGE : list piece :=
  [ Lit "Тип тренировки: "; Str training_type; Lit "; ";
    Lit "Длительность: "; Fixed 3 duration; Lit " ч.; ";
    Lit "Дистанция: "; Fixed 3 distance; Lit " км; ";
    Lit "Ср. скорость: "; Fixed 3 speed; Lit " км/ч; ";
    Lit "Потрачено ккал: "; Fixed 3 calories; Lit "." ].

(** [str.format]: the pieces are rendered left to right and joined; the
    first field that cannot be formatted raises. *)
Fixpoint format (template : list piece) (self : t) : res string :=
  match template with
  | [] => Ok EmptyString
  | Lit text :: rest =>
      tl <- format rest self ;; Ok (text ++ tl)
  | Str field :: rest =>
      tl <- format rest self ;; Ok (field self ++ tl)
  | Fixed p field :: rest =>
      hd <- format_fixed p (field self) ;;
      tl <- format rest self ;; Ok (hd ++ tl)
  end.

Definition get_message (self : t) : res string := format MESSAGE self.

End InfoMessage.

(** ** [Training] and its subclasses *)

(** An instance of one of the four dataclasses, with its fields in the
    order of the generated [__init__]: the base fields, then its own.
    The annotations are not enforced, so every field holds an [int] or a
    [float], as the caller passed it. *)
Inductive training : Type :=
| Training (action duration weight : num)
| Running (action duration weight : num)
| SportsWalking (action duration weight height : num)
| Swimming (action duration weight length_pool count_pool : num).

Definition class_name (self : training) : string :=
  match self with
  | Training _ _ _ => "Training"
  | Running _ _ _ => "Running"
  | SportsWalking _ _ _ _ => "SportsWalking"
  | Swimming _ _ _ _ _ => "Swimming"
  end.

(** *** Instance attributes *)

Definition action (self : training) : num :=
  match self with
  | Training a _ _ | Running a _ _
  | SportsWalking a _ _ _ | Swimming a _ _ _ _ => a
  end.

Definition duration (self : training) : num :=
  match self with
  | Training _ d _ | Running _ d _
  | SportsWalking _ d _ _ | Swimming _ d _ _ _ => d
  end.

Definition weight (self : training) : num :=
  match self with
  | Training _ _ w | Running _ _ w
  | SportsWalking _ _ w _ | Swimming _ _ w _ _ => w
  end.

Definition height (self : training) : res num :=
  match self with
  | SportsWalking _ _ _ h => Ok h
  | _ => Raise AttributeError
  end.

Definition length_pool (self : training) : res num :=
  match self with
  | Swimming _ _ _ lp _ => Ok lp
  | _ => Raise AttributeError
  end.

Definition count_pool (self : training) : res num :=
  match self with
  | Swimming _ _ _ _ cp => Ok cp
  | _ => Raise AttributeError
  end.

(** *** Class attributes *)

Definition Training_M_IN_KM : num := Int 1000.
Definition Training_LEN_STEP : num := Float 0.65.
Definition Training_MIN_IN_H : num := Int 60.

Definition Running_CALORIES_MEAN_SPEED_MULTIPLIER : num := Int 18.
Definition Running_CALORIES_MEAN_SPEED_SHIFT : num := Float 1.79.

Definition SportsWalking_CALORIES_WEIGHT_MULTIPLIER : num := Float 0.035.
Definition SportsWalking_CALORIES_SPEED_HEIGHT_MULTIPLIER : num := Float 0.029.
Definition SportsWalking_KMH_IN_MSEC : num := Float 0.278.
Definition SportsWalking_CM_IN_M : num := Int 100.

Definition Swimming_CALORIES_MEAN_SPEED_SHIFT : num := Float 1.1.
Definition Swimming_CALORIES_MEAN_SPEED_MULTIPLIER : num := Int 2.
Definition Swimming_LEN_STEP : num := Float 1.38.

(** [self.NAME] for a class attribute: the class of [self] is searched
    first, then [Training]. *)
Definition M_IN_KM (self : training) : num := Training_M_IN_KM.

Definition MIN_IN_H (self : training) : num := Training_MIN_IN_H.

Definition LEN_STEP (self : training) : num :=
  match self with
  | Swimming _ _ _ _ _ => Swimming_LEN_STEP
  | _ => Training_LEN_STEP
  end.

Definition CALORIES_MEAN_SPEED_MULTIPLIER (self : training) : res num :=
  match self with
  | Running _ _ _ => Ok Running_CALORIES_MEAN_SPEED_MULTIPLIER
  | Swimming _ _ _ _ _ => Ok Swimming_CALORIES_MEAN_SPEED_MULTIPLIER
  | _ => Raise AttributeError
  end.

Definition CALORIES_MEAN_SPEED_SHIFT (self : training) : res num :=
  match self with
  | Running _ _ _ => Ok Running_CALORIES_MEAN_SPEED_SHIFT
  | Swimming _ _ _ _ _ => Ok Swimming_CALORIES_MEAN_SPEED_SHIFT
  | _ => Raise AttributeError
  end.

Definition CALORIES_WEIGHT_MULTIPLIER (self : training) : res num :=
  match self with
  | SportsWalking _ _ _ _ => Ok SportsWalking_CALORIES_WEIGHT_MULTIPLIER
  | _ => Raise AttributeError
  end.

Definition CALORIES_SPEED_HEIGHT_MULTIPLIER (self : training) : res num :=
  match self with
  | SportsWalking _ _ _ _ =>
      Ok SportsWalking_CALORIES_SPEED_HEIGHT_MULTIPLIER
  | _ => Raise AttributeError
  end.

Definition KMH_IN_MSEC (self : training) : res num :=
  match self with
  | SportsWalking _ _ _ _ => Ok SportsWalking_KMH_IN_MSEC
  | _ => Raise AttributeError
  end.

Definition CM_IN_M (self : training) : res num :=
  match self with
  | SportsWalking _ _ _ _ => Ok SportsWalking_CM_IN_M
  | _ => Raise AttributeError
  end.

(** *** Methods *)

Definition Training_get_distance (self : training) : res num :=
  action self *! LEN_STEP self /! M_IN_KM self.

(** No subclass overrides [get_distance]. *)
Definition get_distance (self : training) : res num :=
  Training_get_distance self.

Definition Training_get_mean_speed (self : training) : res num :=
  get_distance self /! duration self.

Definition Swimming_get_mean_speed (self : training) : res num :=
  length_pool self *! count_pool self
  /! M_IN_KM self /! duration self.

(** [self.get_mean_speed()]: only [Swimming] overrides it. *)
Definition get_mean_speed (self : training) : res num :=
  match self with
  | Swimming _ _ _ _ _ => Swimming_get_mean_speed self
  | _ => Training_get_mean_speed self
  end.

(** The base method returns the exception class itself. *)
Definition Training_get_spent_calories (self : training) : res value :=
  Ok (VType "NotImplementedError").

Definition Running_get_spent_calories (self : training) : res num :=
  (CALORIES_MEAN_SPEED_MULTIPLIER self
   *! get_mean_speed self
   +! CALORIES_MEAN_SPEED_SHIFT self)
  *! weight self /! M_IN_KM self
  *! (duration self *! MIN_IN_H self).

Definition Swimming_get_spent_calories (self : training) : res num :=
  (get_mean_speed self
   +! CALORIES_MEAN_SPEED_SHIFT self)
  *! CALORIES_MEAN_SPEED_MULTIPLIER self
  *! weight self *! duration self.

Section Platform.

Variable libm_pow : float -> float -> float * errno.

Definition SportsWalking_get_spent_calories (self : training) : res num :=
  (CALORIES_WEIGHT_MULTIPLIER self *! weight self
   +! (pow_2 libm_pow (get_mean_speed self *! KMH_IN_MSEC self)
       /! (height self /! CM_IN_M self))
   *! CALORIES_SPEED_HEIGHT_MULTIPLIER self
   *! weight self)
  *! (duration self *! MIN_IN_H self).

(** [self.get_spent_calories()]: every subclass overrides it. *)
Definition get_spent_calories (self : training) : res value :=
  match self with
  | Training _ _ _ => Training_get_spent_calories self
  | Running _ _ _ => fmap VNum (Running_get_spent_calories self)
  | SportsWalking _ _ _ _ =>
      fmap VNum (SportsWalking_get_spent_calories self)
  | Swimming _ _ _ _ _ => fmap VNum (Swimming_get_spent_calories self)
  end.

Definition show_training_info (self : training) : res InfoMessage.t :=
  dist <- get_distance self ;;
  mean_speed <- get_mean_speed self ;;
  spent <- get_spent_calories self ;;
  Ok (InfoMessage.new
        (class_name self)
        (VNum (duration self))
        (VNum dist)
        (VNum mean_speed)
        spent).

(** [main]: the line it prints. *)
Definition main (t : training) : res string :=
  info <- show_training_info t ;;
  InfoMessage.get_message info.

End Platform.

(** ** [read_package] *)

(** A class called on the unpacked [data]: the generated [__init__] takes
    exactly the fields of the class, positionally; any other count is a
    [TypeError]. *)
Definition Training_init (data : list num) : res training :=
  match data with
  | [a; d; w] => Ok (Training a d w)
  | _ => Raise TypeError
  end.

Definition Running_init (data : list num) : res training :=
  match data with
  | [a; d; w] => Ok (Running a d w)
  | _ => Raise TypeError
  end.

Definition SportsWalking_init (data : list num) : res training :=
  match data with
  | [a; d; w; h] => Ok (SportsWalking a d w h)
  | _ => Raise TypeError
  end.

Definition Swimming_init (data : list num) : res training :=
  match data with
  | [a; d; w; lp; cp] => Ok (Swimming a d w lp cp)
  | _ => Raise TypeError
  end.

(** The dict literal, in insertion order. *)
Definition workout_type_class : list (string * (list num -> res training)) :=
  [ ("SWM", Swimming_init);
    ("RUN", Running_init);
    ("WLK", SportsWalking_init) ].

Fixpoint dict_get {V : Type} (k : string) (d : list (string * V)) : option V :=
  match d with
  | [] => None
  | (k', v) :: rest => if String.eqb k k' then Some v else dict_get k rest
  end.

Definition dict_keys {V : Type} (d : list (string * V)) : list string :=
  map fst d.

Definition read_package (workout_type : string) (data : list num)
  : res training :=
  match dict_get workout_type workout_type_class with
  | Some cls => cls data
  | None =>
      Raise (ValueError
               (("Такую тренировку мы не подготовили."
                 ++ "Вот список доступных "
                 ++ "тренировок: ")
                :: dict_keys workout_type_class))
  end.

(** ** The driver *)

Definition packages : list (string * list num) :=
  [ ("SWM", [Int 720; Int 1; Int 80; Int 25; Int 40]);
    ("RUN", [Int 15000; Int 1; Int 75]);
    ("WLK", [Int 9000; Int 1; Int 75; Int 180]) ].

(** The lines printed before the run ends, and the exception that ended
    it, if any. *)
Fixpoint run (libm_pow : float -> float -> float * errno)
  (ps : list (string * list num)) : list string * option exn :=
  match ps with
  | [] => ([], None)
  | (workout_type, data) :: rest =>
      match (t <- read_package workout_type data ;; main libm_pow t) with
      | Ok line =>
          let (lines, e) := run libm_pow rest in (line :: lines, e)
      | Raise e => ([], Some e)
      end
  end.

(** The driver's running sample and its report. *)
Definition running_sample : training := Running (Int 15000) (Int 1) (Int 75).

Definition running_report : InfoMessage.t :=
  InfoMessage.new "Running" (VNum (Int 1)) (VNum (Float 9.75))
    (VNum (Float 9.75)) (VNum (Float 797.805)).

(** A swimming session long enough for its distance to overflow. *)
Definition far_swim : training :=
  Swimming (Float 1.5e308) (Int 1) (Int 80) (Int 25) (Int 40).

Definition far_swim_report : InfoMessage.t :=
  InfoMessage.new "Swimming" (VNum (Int 1)) (VNum (Float infinity))
    (VNum (Float 1)) (VNum (Float 336)).

(** A reference [pow] for running the model: the correctly rounded
    square, with no error reported (the only exponent the program uses
    is [2]). *)
Definition ref_pow (x y : float) : float * errno := ((x * x)%float, ENONE).

(* ================================================================== *)
(** * The specification's formulas and predicates *)
(* ================================================================== *)

Module Spec.

(** [duration_hours > 0], on either kind of number. *)
Definition positive (x : num) : bool :=
  match x with
  | Int z => (0 <? z)%Z
  | Float f => (0 <? f)%float
  end.

(** [x = 0], on either kind of number (both float zeros are zero). *)
Definition is_zero (x : num) : bool :=
  match x with
  | Int z => (z =? 0)%Z
  | Float f => (f =? 0)%float
  end.

(** The per-variant constant of the specification: 0.65 for running and
    walking (the base constant), 1.38 for swimming. *)
Definition distance_per_action_km (self : training) : float :=
  match self with
  | Swimming _ _ _ _ _ => 1.38%float
  | _ => 0.65%float
  end.

(** [action_count * distance_per_action_km / 1000] *)
Definition distance (action_count distance_per_action : num) : res num :=
  action_count *! distance_per_action /! Int 1000.

(** [distance / duration_hours] *)
Definition mean_speed (distance duration_hours : num) : res num :=
  distance /! duration_hours.

(** [(pool_length_m * pool_lengths_count) / 1000 / duration_hours] *)
Definition mean_speed_swimming
  (pool_length_m pool_lengths_count duration_hours : num) : res num :=
  (pool_length_m *! pool_lengths_count) /! Int 1000 /! duration_hours.

(** [(18 * mean_speed_kmh + 1.79) * weight_kg / 1000 * (duration_hours * 60)] *)
Definition calories_running
  (mean_speed_kmh weight_kg duration_hours : num) : res num :=
  (Int 18 *! mean_speed_kmh +! Float 1.79) *! weight_kg /! Int 1000
  *! (duration_hours *! Int 60).

(** [(0.035 * weight_kg + (mean_speed_kmh * 0.278)^2 / (height_cm / 100)
      * 0.029 * weight_kg) * (duration_hours * 60)] *)
Definition calories_walking (libm_pow : float -> float -> float * errno)
  (mean_speed_kmh weight_kg height_cm duration_hours : num) : res num :=
  (Float 0.035 *! weight_kg
   +! pow_2 libm_pow (mean_speed_kmh *! Float 0.278)
      /! (height_cm /! Int 100) *! Float 0.029 *! weight_kg)
  *! (duration_hours *! Int 60).

(** [(mean_speed_kmh + 1.1) * 2 * weight_kg * duration_hours] *)
Definition calories_swimming
  (mean_speed_kmh weight_kg duration_hours : num) : res num :=
  (mean_speed_kmh +! Float 1.1) *! Int 2 *! weight_kg *! duration_hours.

(** "height_cm such that the division is defined": [height_cm / 100]
    evaluates, to a divisor that is not zero. *)
Definition height_divides (height_cm : num) : bool :=
  match py_truediv height_cm (Int 100) with
  | Ok q => negb (is_zero q)
  | Raise _ => false
  end.

(** The report template as the specification words it. *)
Definition MESSAGE : list InfoMessage.piece :=
  [ InfoMessage.Lit "Session type: ";
    InfoMessage.Str InfoMessage.training_type;
    InfoMessage.Lit "; Duration: ";
    InfoMessage.Fixed 3 InfoMessage.duration;
    InfoMessage.Lit " h.; Distance: ";
    InfoMessage.Fixed 3 InfoMessage.distance;
    InfoMessage.Lit " km; Mean speed: ";
    InfoMessage.Fixed 3 InfoMessage.speed;
    InfoMessage.Lit " km/h; Calories burned: ";
    InfoMessage.Fixed 3 InfoMessage.calories;
    InfoMessage.Lit "." ].

(** ** Fixed-point syntax: [-]digits.digits, with exactly [p] digits after
    the point *)

Definition is_digit (c : ascii) : bool :=
  (48 <=? nat_of_ascii c)%nat && (nat_of_ascii c <=? 57)%nat.

Fixpoint all_digits (s : string) : bool :=
  match s with
  | EmptyString => true
  | String c s' => is_digit c && all_digits s'
  end.

(** The text before and after the first point. *)
Fixpoint split_at_point (s : string) : option (string * string) :=
  match s with
  | EmptyString => None
  | String c s' =>
      if Ascii.eqb c "."%char then Some (EmptyString, s')
      else match split_at_point s' with
           | Some (a, b) => Some (String c a, b)
           | None => None
           end
  end.

Definition strip_minus (s : string) : string :=
  match s with
  | String "-"%char s' => s'
  | _ => s
  end.

Definition is_fixed_point (p : nat) (s : string) : bool :=
  match split_at_point (strip_minus s) with
  | Some (ip, fp) =>
      negb (String.length ip =? 0)%nat && all_digits ip
      && all_digits fp && (String.length fp =? p)%nat
  | None => false
  end.

(** A float with a decimal expansion: neither an infinity nor a NaN. *)
Definition is_finite (f : float) : bool :=
  match Prim2SF f with
  | S754_zero _ | S754_finite _ _ _ => true
  | _ => false
  end.

(** A report field holding a number whose float value is finite. *)
Definition finite_number (v : value) : bool :=
  match v with
  | VNum (Float f) => is_finite f
  | VNum (Int z) => is_ok (int_to_float z)
  | VType _ => false
  end.

(** [s] is the rendering of [v] under [.3f], and has the fixed-point
    syntax with three digits. *)
Definition renders_fixed3 (v : value) (s : string) : Prop :=
  format_fixed 3 v = Ok s /\ is_fixed_point 3 s = true.

End Spec.

(* ================================================================== *)
(** * Vocabulary for the properties of the whole pipeline *)
(* ================================================================== *)

(** The codes of [workout_type_class] with the number of fields of the
    class each one selects: the three base fields and the class's own. *)
Definition field_counts : list (string * nat) :=
  [ ("SWM", 5%nat); ("RUN", 3%nat); ("WLK", 4%nat) ].

(** An instance of [Training] itself, not of a subclass. *)
Definition is_base (self : training) : bool :=
  match self with
  | Training _ _ _ => true
  | _ => false
  end.

(** A field value that [.3f] accepts: a number with a float value. *)
Definition formattable (v : value) : bool :=
  match v with
  | VNum n => is_ok (to_float n)
  | VType _ => false
  end.

(** An outcome that, when it is a value, is a [float]. *)
Definition float_valued (m : res num) : Prop :=
  forall v, m = Ok v -> exists f, v = Float f.


(** An outcome that is a [float]. *)
Definition returns_float (m : res num) : Prop :=
  exists f, m = Ok (Float f).

(** An outcome that is a number with a float value. *)
Definition has_float_value (m : res num) : Prop :=
  exists n, m = Ok n /\ is_ok (to_float n) = true.

(** One turn of the driver's loop: the line printed for a package. *)
Definition process (libm_pow : float -> float -> float * errno)
  (package : string * list num) : res string :=
  t <- read_package (fst package) (snd package) ;; main libm_pow t.

(* ================================================================== *)
(** * Facts about the runtime *)
(* ================================================================== *)

(** ** Rounding an [int] to binary64 *)

Section IntToFloat.

Local Open Scope Z_scope.

Lemma digits2_pos_log2 (p : positive) :
  Zpos (digits2_pos p) = Z.log2 (Zpos p) + 1.
Proof.
  induction p as [p IH | p IH | ]; simpl digits2_pos.
  - rewrite Pos2Z.inj_succ, IH.
    change (Zpos p~1) with (2 * Zpos p + 1).
    rewrite Z.log2_succ_double by lia. lia.
  - rewrite Pos2Z.inj_succ, IH.
    change (Zpos p~0) with (2 * Zpos p).
    rewrite Z.log2_double by lia. lia.
  - reflexivity.
Qed.

Lemma Zdigits2_log2 (m : Z) : 0 < m -> Zdigits2 m = Z.log2 m + 1.
Proof.
  destruct m as [| p | p]; try lia. intros _. apply digits2_pos_log2.
Qed.

Lemma shr_1_m (r : shr_record) :
  0 <= shr_m r -> shr_m (shr_1 r) = shr_m r / 2.
Proof.
  destruct r as [m b s]; simpl. intros Hm.
  destruct m as [| [p | p |] | p]; try lia; simpl.
  - reflexivity.
  - change (Zpos p~1) with (2 * Zpos p + 1).
    apply Z.div_unique with (r := 1); lia.
  - change (Zpos p~0) with (2 * Zpos p).
    apply Z.div_unique with (r := 0); lia.
  - reflexivity.
Qed.

Lemma iter_shr_1_m (n : positive) (r : shr_record) :
  0 <= shr_m r -> shr_m (iter_pos shr_1 n r) = shr_m r / 2 ^ Zpos n.
Proof.
  revert r. induction n as [n IH | n IH | ]; intros r Hr; simpl iter_pos.
  - assert (H1 : 0 <= shr_m (shr_1 r)).
    { rewrite shr_1_m by assumption. apply Z.div_pos; lia. }
    assert (H2 : 0 <= shr_m (iter_pos shr_1 n (shr_1 r))).
    { rewrite IH by assumption. apply Z.div_pos; lia. }
    rewrite IH, IH, shr_1_m by assumption.
    rewrite !Z.div_div by lia.
    f_equal. rewrite (Pos2Z.inj_xI n).
    replace (2 * Zpos n + 1) with (1 + (Zpos n + Zpos n)) by lia.
    rewrite Z.pow_add_r, Z.pow_add_r by lia. lia.
  - assert (H2 : 0 <= shr_m (iter_pos shr_1 n r)).
    { rewrite IH by assumption. apply Z.div_pos; lia. }
    rewrite IH, IH by assumption.
    rewrite !Z.div_div by lia.
    f_equal. rewrite (Pos2Z.inj_xO n).
    replace (2 * Zpos n) with (Zpos n + Zpos n) by lia.
    rewrite Z.pow_add_r by lia. lia.
  - rewrite shr_1_m by assumption. reflexivity.
Qed.

Lemma shr_record_of_loc_m (m : Z) (l : location) :
  shr_m (shr_record_of_loc m l) = m.
Proof. destruct l as [| []]; reflexivity. Qed.

Lemma shr_spec (r : shr_record) (e n : Z) :
  0 <= shr_m r -> 0 <= n ->
  shr_m (fst (shr r e n)) = shr_m r / 2 ^ n /\ snd (shr r e n) = e + n.
Proof.
  intros Hr Hn. destruct n as [| n | n]; try lia; simpl.
  - rewrite Z.div_1_r. lia.
  - split; [apply iter_shr_1_m; assumption | reflexivity].
Qed.

Lemma round_nearest_even_bounds (m : Z) (l : location) :
  m <= round_nearest_even m l <= m + 1.
Proof.
  destruct l as [| []]; simpl; try lia. destruct (Z.even m); lia.
Qed.

Lemma fexp_normal (e : Z) : -1021 <= e -> fexp prec emax e = e - 53.
Proof. unfold fexp, SpecFloat.emin, prec, emax. lia. Qed.

(** Rounding a mantissa of at least 53 bits in the normal range gives an
    infinity or a canonical finite number, never a zero. *)
Lemma binary_round_aux_normal (s : bool) (mx ex : Z) (lx : location) :
  0 < mx -> 53 <= Zdigits2 mx -> -1074 <= ex ->
  match binary_round_aux prec emax s mx ex lx with
  | S754_infinity s' => s' = s
  | S754_finite s' m e => s' = s /\ bounded prec emax m e = true
  | _ => False
  end.
Proof.
  intros Hmx Hd Hex.
  rewrite Zdigits2_log2 in Hd by assumption.
  unfold binary_round_aux, shr_fexp.
  rewrite (Zdigits2_log2 mx) by assumption.
  rewrite fexp_normal by lia.
  set (n1 := Z.log2 mx + 1 + ex - 53 - ex).
  assert (Hn1 : n1 = Z.log2 mx - 52) by (unfold n1; lia).
  destruct (shr_spec (shr_record_of_loc mx lx) ex n1) as [Hq He'];
    [rewrite shr_record_of_loc_m; lia | lia |].
  rewrite shr_record_of_loc_m in Hq.
  destruct (shr (shr_record_of_loc mx lx) ex n1) as [mrs' e'].
  simpl in Hq, He'.
  pose proof (Z.log2_spec mx Hmx) as [Hlo Hhi].
  assert (Hpow : 2 ^ Z.log2 mx = 2 ^ 52 * 2 ^ n1).
  { rewrite <- Z.pow_add_r by lia. f_equal. lia. }
  assert (Hqlo : 2 ^ 52 <= shr_m mrs').
  { rewrite Hq. apply Z.div_le_lower_bound; [apply Z.pow_pos_nonneg; lia |].
    rewrite Z.mul_comm, <- Hpow. exact Hlo. }
  assert (Hqhi : shr_m mrs' < 2 ^ 53).
  { rewrite Hq. apply Z.div_lt_upper_bound; [apply Z.pow_pos_nonneg; lia |].
    replace (2 ^ n1 * 2 ^ 53) with (2 ^ Z.succ (Z.log2 mx)); [exact Hhi |].
    rewrite <- Z.pow_add_r by lia. f_equal. lia. }
  pose proof (round_nearest_even_bounds (shr_m mrs') (loc_of_shr_record mrs'))
    as Hrne.
  set (m1 := round_nearest_even (shr_m mrs') (loc_of_shr_record mrs')) in *.
  assert (Hm1 : 2 ^ 52 <= m1 <= 2 ^ 53) by lia.
  assert (Hm1pos : 0 < m1)
    by (change (2 ^ 52) with 4503599627370496 in Hm1; lia).
  rewrite (Zdigits2_log2 m1) by assumption.
  assert (Hlog : Z.log2 m1 = 52 \/ (Z.log2 m1 = 53 /\ m1 = 2 ^ 53)).
  { destruct (Z.eq_dec m1 (2 ^ 53)) as [-> | Hne].
    - right. split; reflexivity.
    - left. apply Z.log2_unique; [lia |].
      change (2 ^ Z.succ 52) with (2 ^ 53). lia. }
  rewrite fexp_normal by lia.
  set (n2 := Z.log2 m1 + 1 + e' - 53 - e').
  destruct (shr_spec (shr_record_of_loc m1 loc_Exact) e' n2) as [Hq2 He''];
    [simpl; lia | unfold n2; lia |].
  destruct (shr (shr_record_of_loc m1 loc_Exact) e' n2) as [mrs'' e''].
  simpl in Hq2, He''.
  assert (Hfin : 2 ^ 52 <= shr_m mrs'' < 2 ^ 53).
  { rewrite Hq2. destruct Hlog as [Hl | [Hl ->]].
    - replace n2 with 0 by (unfold n2; lia). rewrite Z.div_1_r.
      split; [lia |]. destruct (Z.eq_dec m1 (2 ^ 53)) as [E | E]; [| lia].
      rewrite E in Hl. discriminate Hl.
    - replace n2 with 1 by (unfold n2; lia). split; reflexivity. }
  destruct (shr_m mrs'') as [| m | m] eqn:Em;
    try (change (2 ^ 52) with 4503599627370496 in Hfin; lia).
  destruct (e'' <=? emax - prec) eqn:Ele; [| reflexivity].
  split; [reflexivity |].
  unfold bounded, canonical_mantissa. rewrite Ele, andb_true_r.
  apply Z.eqb_eq. rewrite digits2_pos_log2.
  replace (Z.log2 (Zpos m)) with 52.
  - rewrite fexp_normal by (unfold n2 in He''; lia). lia.
  - symmetry. apply Z.log2_unique; [lia |].
    change (2 ^ Z.succ 52) with (2 ^ 53). lia.
Qed.

Lemma iter_xO_shiftl (p d : positive) :
  Zpos (Pos.iter xO p d) = Zpos p * 2 ^ Zpos d.
Proof.
  rewrite <- Z.shiftl_mul_pow2 by lia. simpl Z.shiftl.
  apply (Pos.iter_swap_gen _ _ Zpos xO (Z.mul 2)). reflexivity.
Qed.

Lemma binary_round_int (s : bool) (p : positive) :
  match binary_round prec emax s p 0 with
  | S754_infinity s' => s' = s
  | S754_finite s' m e => s' = s /\ bounded prec emax m e = true
  | _ => False
  end.
Proof.
  unfold binary_round.
  pose proof (digits2_pos_log2 p) as HD.
  pose proof (Z.log2_nonneg (Zpos p)) as Hlog.
  rewrite Z.add_0_r, fexp_normal by lia.
  unfold shl_align. rewrite Z.sub_0_r.
  destruct (Zpos (digits2_pos p) - 53) as [| d | d] eqn:Ed.
  - apply binary_round_aux_normal; simpl; lia.
  - apply binary_round_aux_normal; simpl; lia.
  - apply binary_round_aux_normal; [lia | | lia].
    simpl Zdigits2. rewrite digits2_pos_log2, iter_xO_shiftl.
    rewrite Z.log2_mul_pow2 by lia. lia.
Qed.

(** What [float(z)] is when it exists: zero for [0], otherwise a finite
    non-zero float with the sign of [z]. *)
Lemma int_to_float_inv (z : Z) (f : float) :
  int_to_float z = Ok f ->
  match z with
  | Z0 => Prim2SF f = S754_zero false
  | Zpos _ => exists m e, Prim2SF f = S754_finite false m e
  | Zneg _ => exists m e, Prim2SF f = S754_finite true m e
  end.
Proof.
  unfold int_to_float, binary_normalize.
  destruct z as [| p | p].
  - intros [= <-]. reflexivity.
  - pose proof (binary_round_int false p) as H.
    destruct (binary_round prec emax false p 0) as [| | | s m e];
      try contradiction; [discriminate |].
    destruct H as [-> Hb]. intros [= <-]. exists m, e.
    apply (Prim2SF_SF2Prim (S754_finite false m e)). exact Hb.
  - pose proof (binary_round_int true p) as H.
    destruct (binary_round prec emax true p 0) as [| | | s m e];
      try contradiction; [discriminate |].
    destruct H as [-> Hb]. intros [= <-]. exists m, e.
    apply (Prim2SF_SF2Prim (S754_finite true m e)). exact Hb.
Qed.

End IntToFloat.

(** ** Float comparisons with zero *)

Lemma Prim2SF_0 : Prim2SF 0 = S754_zero false.
Proof. reflexivity. Qed.

Lemma float_eqb_0 (f : float) :
  (f =? 0)%float =
  match Prim2SF f with
  | S754_zero _ => true
  | _ => false
  end.
Proof.
  rewrite eqb_spec, Prim2SF_0.
  destruct (Prim2SF f) as [[] | [] | | [] m e]; reflexivity.
Qed.

Lemma float_ltb_0 (f : float) :
  (0 <? f)%float =
  match Prim2SF f with
  | S754_infinity false | S754_finite false _ _ => true
  | _ => false
  end.
Proof.
  rewrite ltb_spec, Prim2SF_0.
  destruct (Prim2SF f) as [[] | [] | | [] m e]; reflexivity.
Qed.

Lemma float_pos_nonzero (f : float) :
  (0 <? f)%float = true -> (f =? 0)%float = false.
Proof.
  rewrite float_ltb_0, float_eqb_0.
  destruct (Prim2SF f) as [[] | [] | | [] m e]; congruence.
Qed.

Lemma int_to_float_eqb_0 (z : Z) (f : float) :
  int_to_float z = Ok f -> (f =? 0)%float = (z =? 0)%Z.
Proof.
  intros H. apply int_to_float_inv in H. rewrite float_eqb_0.
  destruct z; [rewrite H | destruct H as (m & e & ->) ..]; reflexivity.
Qed.

Lemma int_to_float_finite (z : Z) (f : float) :
  int_to_float z = Ok f -> Spec.is_finite f = true.
Proof.
  intros H. apply int_to_float_inv in H. unfold Spec.is_finite.
  destruct z; [rewrite H | destruct H as (m & e & ->) ..]; reflexivity.
Qed.

Lemma to_float_is_zero (x : num) (f : float) :
  to_float x = Ok f -> (f =? 0)%float = Spec.is_zero x.
Proof.
  destruct x as [z | g]; simpl.
  - apply int_to_float_eqb_0.
  - intros [= ->]. reflexivity.
Qed.

Lemma positive_not_zero (x : num) :
  Spec.positive x = true -> Spec.is_zero x = false.
Proof.
  destruct x as [z | f]; simpl.
  - intros H. apply Z.ltb_lt in H. apply Z.eqb_neq. lia.
  - apply float_pos_nonzero.
Qed.

(** ** Which exceptions the operators can raise *)

Lemma raises_only_weaken {A : Type} (P Q : exn -> Prop) (m : res A) :
  raises_only P m -> (forall e, P e -> Q e) -> raises_only Q m.
Proof. intros H HPQ e He. apply HPQ, (H e He). Qed.

Lemma raises_only_Ok {A : Type} (P : exn -> Prop) (a : A) :
  raises_only P (Ok a).
Proof. intros e He. discriminate He. Qed.

Lemma raises_only_bind {A B : Type} (P : exn -> Prop)
  (m : res A) (k : A -> res B) :
  raises_only P m ->
  (forall a, m = Ok a -> raises_only P (k a)) ->
  raises_only P (bind m k).
Proof.
  intros Hm Hk e. destruct m as [a | e']; simpl.
  - apply (Hk a eq_refl).
  - intros [= <-]. apply Hm. reflexivity.
Qed.

Lemma lift2_raises_only (P : exn -> Prop)
  (op : num -> num -> res num) (a b : res num) :
  raises_only P a -> raises_only P b ->
  (forall x y, a = Ok x -> b = Ok y -> raises_only P (op x y)) ->
  raises_only P (lift2 op a b).
Proof.
  intros Ha Hb Hop. unfold lift2.
  apply raises_only_bind; [exact Ha |]. intros x Hx.
  apply raises_only_bind; [exact Hb |]. intros y Hy.
  apply Hop; assumption.
Qed.

Lemma int_to_float_overflow (z : Z) :
  raises_only (eq OverflowError) (int_to_float z).
Proof.
  unfold int_to_float. intros e.
  destruct (binary_normalize prec emax z 0 false); congruence.
Qed.

Lemma to_float_overflow (x : num) :
  raises_only (eq OverflowError) (to_float x).
Proof.
  destruct x; simpl; [apply int_to_float_overflow | apply raises_only_Ok].
Qed.

Lemma py_mul_overflow (a b : num) :
  raises_only (eq OverflowError) (py_mul a b).
Proof.
  assert (Hmixed : forall op, raises_only (eq OverflowError)
            (x <- to_float a ;; y <- to_float b ;; Ok (Float (op x y)))).
  { intros op.
    apply raises_only_bind; [apply to_float_overflow |]. intros x _.
    apply raises_only_bind; [apply to_float_overflow |]. intros y _.
    apply raises_only_Ok. }
  destruct a, b; try apply Hmixed. apply raises_only_Ok.
Qed.

Lemma py_add_overflow (a b : num) :
  raises_only (eq OverflowError) (py_add a b).
Proof.
  assert (Hmixed : forall op, raises_only (eq OverflowError)
            (x <- to_float a ;; y <- to_float b ;; Ok (Float (op x y)))).
  { intros op.
    apply raises_only_bind; [apply to_float_overflow |]. intros x _.
    apply raises_only_bind; [apply to_float_overflow |]. intros y _.
    apply raises_only_Ok. }
  destruct a, b; try apply Hmixed. apply raises_only_Ok.
Qed.

Lemma int_true_divide_overflow (x y : Z) :
  (y =? 0)%Z = false ->
  raises_only (eq OverflowError) (int_true_divide x y).
Proof.
  unfold int_true_divide. intros ->. intros e.
  destruct (SFdiv prec emax (Z2SF x) (Z2SF y)); congruence.
Qed.

Lemma float_div_nonzero (x y : float) :
  (y =? 0)%float = false -> float_div x y = Ok (x / y)%float.
Proof. unfold float_div. intros ->. reflexivity. Qed.

Lemma float_div_zero (x y : float) :
  (y =? 0)%float = true -> float_div x y = Raise ZeroDivisionError.
Proof. unfold float_div. intros ->. reflexivity. Qed.

(** With a divisor that is not zero, [/] can only overflow. *)
Lemma py_truediv_overflow (a b : num) :
  Spec.is_zero b = false ->
  raises_only (eq OverflowError) (py_truediv a b).
Proof.
  intros Hb.
  assert (Hmixed : raises_only (eq OverflowError)
            (x <- to_float a ;; y <- to_float b ;;
             q <- float_div x y ;; Ok (Float q))).
  { apply raises_only_bind; [apply to_float_overflow |]. intros x _.
    apply raises_only_bind; [apply to_float_overflow |]. intros y Hy.
    rewrite float_div_nonzero
      by (rewrite (to_float_is_zero b y Hy); exact Hb).
    apply raises_only_Ok. }
  destruct a as [x | x], b as [y | y]; try exact Hmixed.
  simpl. apply raises_only_bind; [| intros; apply raises_only_Ok].
  apply int_true_divide_overflow. exact Hb.
Qed.

(** A division by a zero float raises [ZeroDivisionError] as soon as the
    dividend is a float. *)
Lemma py_truediv_by_zero (x : float) (b : num) :
  Spec.is_zero b = true ->
  py_truediv (Float x) b = Raise ZeroDivisionError.
Proof.
  intros Hb. destruct b as [z | y]; cbn [py_truediv to_float bind].
  - apply Z.eqb_eq in Hb. subst z.
    change (int_to_float 0) with (Ok 0%float). cbn [bind].
    rewrite float_div_zero by reflexivity. reflexivity.
  - rewrite float_div_zero by exact Hb. reflexivity.
Qed.

(* ================================================================== *)
(** * The claims *)
(* ================================================================== *)

(** ** The base class *)

(** C1 (the code at the failing inputs): on every base [Training] record
    [get_spent_calories] raises nothing; it returns a value, the class
    object [NotImplementedError] itself. *)
Theorem Training_get_spent_calories_returns_class
  (libm_pow : float -> float -> float * errno) (a d w : num) :
  get_spent_calories libm_pow (Training a d w)
  = Ok (VType "NotImplementedError").
Proof. reflexivity. Qed.

(** The returned class then reaches the report as its calories field, and
    formatting it under [.3f] is what fails. *)
Example main_base_training :
  show_training_info ref_pow (Training (Int 1) (Int 1) (Int 1))
  = Ok (InfoMessage.new "Training" (VNum (Int 1))
          (VNum (Float 0.00065)) (VNum (Float 0.00065))
          (VType "NotImplementedError"))
  /\ main ref_pow (Training (Int 1) (Int 1) (Int 1)) = Raise TypeError.
Proof. split; reflexivity. Qed.

(** ** [read_package] *)

(** C2: for every code outside SWM, RUN, WLK and every data sequence,
    [read_package] raises [ValueError]; after the fixed text its
    arguments are exactly the three valid codes. *)
Theorem read_package_unknown_code (workout_type : string) (data : list num) :
  ~ In workout_type ["SWM"; "RUN"; "WLK"] ->
  read_package workout_type data
  = Raise (ValueError
             ["Такую тренировку мы не подготовили.Вот список доступных тренировок: ";
              "SWM"; "RUN"; "WLK"]).
Proof.
  intros Hnot. unfold read_package. simpl dict_get.
  destruct (String.eqb_spec workout_type "SWM") as [-> | _];
    [exfalso; apply Hnot; simpl; auto |].
  destruct (String.eqb_spec workout_type "RUN") as [-> | _];
    [exfalso; apply Hnot; simpl; auto |].
  destruct (String.eqb_spec workout_type "WLK") as [-> | _];
    [exfalso; apply Hnot; simpl; auto |].
  reflexivity.
Qed.

(** C3: a valid code with the field count of its class gives an instance
    of that class whose fields are the data, in declaration order (the
    base fields first). *)
Theorem read_package_valid (x1 x2 x3 x4 x5 : num) :
  (let t := Swimming x1 x2 x3 x4 x5 in
   read_package "SWM" [x1; x2; x3; x4; x5] = Ok t
   /\ class_name t = "Swimming"
   /\ action t = x1 /\ duration t = x2 /\ weight t = x3
   /\ length_pool t = Ok x4 /\ count_pool t = Ok x5)
  /\ (let t := Running x1 x2 x3 in
      read_package "RUN" [x1; x2; x3] = Ok t
      /\ class_name t = "Running"
      /\ action t = x1 /\ duration t = x2 /\ weight t = x3)
  /\ (let t := SportsWalking x1 x2 x3 x4 in
      read_package "WLK" [x1; x2; x3; x4] = Ok t
      /\ class_name t = "SportsWalking"
      /\ action t = x1 /\ duration t = x2 /\ weight t = x3
      /\ height t = Ok x4).
Proof. repeat split. Qed.

(** Any other field count is rejected by the constructor. *)
Lemma read_package_arity (data : list num) :
  (List.length data <> 5%nat -> read_package "SWM" data = Raise TypeError)
  /\ (List.length data <> 3%nat -> read_package "RUN" data = Raise TypeError)
  /\ (List.length data <> 4%nat -> read_package "WLK" data = Raise TypeError).
Proof.
  repeat split; intros H;
    destruct data as [| ? [| ? [| ? [| ? [| ? [| ? ?]]]]]];
    try reflexivity; contradiction H; reflexivity.
Qed.

(** ** Distance *)

Lemma to_float_1000 : to_float (Int 1000) = Ok 1000%float.
Proof. reflexivity. Qed.

(** Dividing a float by the [int] constant 1000 always succeeds. *)
Lemma truediv_1000 (x : float) :
  py_truediv (Float x) (Int 1000) = Ok (Float (x / 1000)).
Proof.
  cbn [py_truediv bind]. rewrite to_float_1000. cbn [to_float bind].
  rewrite float_div_nonzero by reflexivity. reflexivity.
Qed.

(** An [int] or [float] times a float constant: one conversion, one
    rounded product. *)
Lemma mul_float_r (a : num) (k : float) :
  py_mul a (Float k) = (fa <- to_float a ;; Ok (Float (fa * k))).
Proof. destruct a; reflexivity. Qed.

(** The distance as a float computation: one conversion of the action
    count, one product, one quotient. *)
Lemma get_distance_eval (self : training) :
  get_distance self
  = (fa <- to_float (action self) ;;
     Ok (Float (fa * Spec.distance_per_action_km self / 1000))).
Proof.
  replace (get_distance self)
    with (Spec.distance (action self)
            (Float (Spec.distance_per_action_km self)))
    by (destruct self; reflexivity).
  unfold Spec.distance, lift2, lit. cbn [bind]. rewrite mul_float_r.
  destruct (to_float (action self)) as [fa | e]; cbn [bind]; [| reflexivity].
  apply truediv_1000.
Qed.

(** C4: [get_distance] is [action_count * distance_per_action_km / 1000]
    with 0.65 for running and walking and 1.38 for swimming; it returns
    that float whenever the action count has a float value. *)
Theorem get_distance_formula (self : training) :
  get_distance self
  = Spec.distance (action self) (Float (Spec.distance_per_action_km self))
  /\ get_distance self
     = (fa <- to_float (action self) ;;
        Ok (Float (fa * Spec.distance_per_action_km self / 1000))).
Proof.
  split; [destruct self; reflexivity | apply get_distance_eval].
Qed.

(** ** Mean speed *)

Lemma lit_inv (x y : num) : lit x = Ok y -> y = x.
Proof. intros [= ->]. reflexivity. Qed.

(** Dividing an outcome by a number that is not zero can only overflow. *)
Lemma truediv_lit_overflow (a : res num) (d : num) :
  raises_only (eq OverflowError) a ->
  Spec.is_zero d = false ->
  raises_only (eq OverflowError) (a /! d).
Proof.
  intros Ha Hd. apply lift2_raises_only;
    [exact Ha | apply raises_only_Ok |].
  intros x y _ Hy. apply lit_inv in Hy. subst y.
  apply py_truediv_overflow. exact Hd.
Qed.

Lemma mul_overflow (a b : res num) :
  raises_only (eq OverflowError) a ->
  raises_only (eq OverflowError) b ->
  raises_only (eq OverflowError) (a *! b).
Proof.
  intros Ha Hb. apply lift2_raises_only; [exact Ha | exact Hb |].
  intros; apply py_mul_overflow.
Qed.

Lemma add_overflow (a b : res num) :
  raises_only (eq OverflowError) a ->
  raises_only (eq OverflowError) b ->
  raises_only (eq OverflowError) (a +! b).
Proof.
  intros Ha Hb. apply lift2_raises_only; [exact Ha | exact Hb |].
  intros; apply py_add_overflow.
Qed.

Lemma lit_overflow (x : num) : raises_only (eq OverflowError) (lit x).
Proof. apply raises_only_Ok. Qed.

Lemma get_distance_overflow (self : training) :
  raises_only (eq OverflowError) (get_distance self).
Proof.
  unfold get_distance, Training_get_distance.
  apply truediv_lit_overflow; [| reflexivity].
  apply mul_overflow; apply lit_overflow.
Qed.

Lemma get_mean_speed_overflow (self : training) :
  Spec.positive (duration self) = true ->
  raises_only (eq OverflowError) (get_mean_speed self).
Proof.
  intros Hd. apply positive_not_zero in Hd.
  destruct self as [a d w | a d w | a d w h | a d w lp cp];
    cbn [get_mean_speed duration] in *.
  1-3: apply truediv_lit_overflow;
       [apply get_distance_overflow | exact Hd].
  unfold Swimming_get_mean_speed. cbn [length_pool count_pool duration].
  apply truediv_lit_overflow; [| exact Hd].
  apply truediv_lit_overflow; [| reflexivity].
  apply mul_overflow; apply lit_overflow.
Qed.

(** Dividing a float by a positive number: one conversion, one rounded
    quotient. *)
Lemma truediv_positive (x : float) (d : num) :
  Spec.positive d = true ->
  py_truediv (Float x) d = (fd <- to_float d ;; Ok (Float (x / fd))).
Proof.
  intros Hd. apply positive_not_zero in Hd.
  destruct d as [z | fd]; cbn [py_truediv to_float bind].
  - destruct (int_to_float z) as [fd | e] eqn:Ez; cbn [bind];
      [| reflexivity].
    rewrite float_div_nonzero; [reflexivity |].
    rewrite (int_to_float_eqb_0 z fd Ez). exact Hd.
  - rewrite float_div_nonzero; [reflexivity | exact Hd].
Qed.

(** The inherited mean speed as a float computation. *)
Lemma Training_get_mean_speed_eval (self : training) :
  Spec.positive (duration self) = true ->
  Training_get_mean_speed self
  = (fa <- to_float (action self) ;; fd <- to_float (duration self) ;;
     Ok (Float (fa * Spec.distance_per_action_km self / 1000 / fd))).
Proof.
  intros Hd. unfold Training_get_mean_speed, lift2, lit.
  rewrite get_distance_eval.
  destruct (to_float (action self)) as [fa | e]; cbn [bind]; [| reflexivity].
  apply truediv_positive. exact Hd.
Qed.

(** C5: with [duration_hours > 0], running and walking sessions have the
    mean speed [get_distance() / duration_hours], swimming sessions have
    [(pool_length_m * pool_lengths_count) / 1000 / duration_hours]
    whatever the action count; no division by zero can occur, and the
    default speed is returned whenever the action count and the duration
    have float values. *)
Theorem get_mean_speed_formula (a d w h lp cp : num) :
  Spec.positive d = true ->
  (forall self, self = Running a d w \/ self = SportsWalking a d w h ->
     get_mean_speed self
     = (dist <- get_distance self ;; Spec.mean_speed dist d)
     /\ get_mean_speed self
        = (fa <- to_float a ;; fd <- to_float d ;;
           Ok (Float (fa * 0.65 / 1000 / fd))))
  /\ get_mean_speed (Swimming a d w lp cp)
     = Spec.mean_speed_swimming lp cp d
  /\ (forall a', get_mean_speed (Swimming a' d w lp cp)
                 = get_mean_speed (Swimming a d w lp cp))
  /\ (forall self, duration self = d ->
       raises_only (eq OverflowError) (get_mean_speed self)).
Proof.
  intros Hd.
  split; [intros self H; split | split; [| split]].
  - destruct H as [-> | ->]; cbn [get_mean_speed];
      unfold Training_get_mean_speed, Spec.mean_speed, lift2, lit;
      destruct (get_distance _); reflexivity.
  - destruct H as [-> | ->]; cbn [get_mean_speed];
      rewrite Training_get_mean_speed_eval by exact Hd; reflexivity.
  - reflexivity.
  - intros a'. reflexivity.
  - intros self <-. apply get_mean_speed_overflow. exact Hd.
Qed.

(** ** Spent calories *)

Lemma fmap_overflow {A B : Type} (f : A -> B) (m : res A) :
  raises_only (eq OverflowError) m ->
  raises_only (eq OverflowError) (fmap f m).
Proof.
  intros H. apply raises_only_bind; [exact H |].
  intros; apply raises_only_Ok.
Qed.

Lemma mul_float_l (x : float) (b : num) :
  py_mul (Float x) b = (fb <- to_float b ;; Ok (Float (x * fb))).
Proof. destruct b; reflexivity. Qed.

(** C6: with [duration_hours > 0], a running session spends
    [(18 * mean_speed_kmh + 1.79) * weight_kg / 1000 * (duration_hours * 60)]
    with the mean speed of the same session; nothing but an overflow can
    prevent the result, and on a float duration the result is the float
    expression below whenever the action count and the weight have float
    values. *)
Theorem Running_get_spent_calories_formula
  (libm_pow : float -> float -> float * errno) (a d w : num) :
  Spec.positive d = true ->
  get_spent_calories libm_pow (Running a d w)
  = (mean_speed_kmh <- get_mean_speed (Running a d w) ;;
     fmap VNum (Spec.calories_running mean_speed_kmh w d))
  /\ raises_only (eq OverflowError)
       (get_spent_calories libm_pow (Running a d w))
  /\ (forall fa fd fw,
       to_float a = Ok fa -> d = Float fd -> to_float w = Ok fw ->
       get_spent_calories libm_pow (Running a d w)
       = Ok (VNum (Float ((18 * (fa * 0.65 / 1000 / fd) + 1.79)
                          * fw / 1000 * (fd * 60))))).
Proof.
  intros Hd. split; [| split].
  - cbn [get_spent_calories]. unfold Running_get_spent_calories.
    cbn [CALORIES_MEAN_SPEED_MULTIPLIER CALORIES_MEAN_SPEED_SHIFT
         weight duration M_IN_KM MIN_IN_H].
    destruct (get_mean_speed (Running a d w)); reflexivity.
  - cbn [get_spent_calories]. apply fmap_overflow.
    unfold Running_get_spent_calories.
    cbn [CALORIES_MEAN_SPEED_MULTIPLIER CALORIES_MEAN_SPEED_SHIFT
         weight duration M_IN_KM MIN_IN_H].
    apply mul_overflow; [| apply mul_overflow; apply lit_overflow].
    apply truediv_lit_overflow; [| reflexivity].
    apply mul_overflow; [| apply lit_overflow].
    apply add_overflow; [| apply lit_overflow].
    apply mul_overflow; [apply lit_overflow |].
    apply get_mean_speed_overflow. exact Hd.
  - intros fa fd fw Ha -> Hw.
    cbn [get_spent_calories]. unfold Running_get_spent_calories.
    cbn [CALORIES_MEAN_SPEED_MULTIPLIER CALORIES_MEAN_SPEED_SHIFT
         weight duration M_IN_KM MIN_IN_H get_mean_speed].
    rewrite Training_get_mean_speed_eval by exact Hd.
    cbn [action duration to_float Spec.distance_per_action_km].
    rewrite Ha. unfold fmap, lift2, lit. cbn [bind].
    change (py_mul Running_CALORIES_MEAN_SPEED_MULTIPLIER
              (Float (fa * 0.65 / 1000 / fd)))
      with (Ok (Float (18 * (fa * 0.65 / 1000 / fd)))).
    unfold Running_CALORIES_MEAN_SPEED_SHIFT, M_IN_KM, MIN_IN_H,
      Training_M_IN_KM, Training_MIN_IN_H.
    cbn [bind py_add to_float]. rewrite mul_float_l, Hw. cbn [bind].
    rewrite truediv_1000. cbn [bind].
    change (py_mul (Float fd) (Int 60)) with (Ok (Float (fd * 60))).
    reflexivity.
Qed.

(** C8: with [duration_hours > 0], a swimming session spends
    [(mean_speed_kmh + 1.1) * 2 * weight_kg * duration_hours], the mean
    speed being the pool-based one of the override; nothing but an
    overflow can prevent the result, which is the float expression below
    whenever the pool distance, the duration and the weight have float
    values. *)
Theorem Swimming_get_spent_calories_formula
  (libm_pow : float -> float -> float * errno) (a d w lp cp : num) :
  Spec.positive d = true ->
  get_spent_calories libm_pow (Swimming a d w lp cp)
  = (mean_speed_kmh <- get_mean_speed (Swimming a d w lp cp) ;;
     fmap VNum (Spec.calories_swimming mean_speed_kmh w d))
  /\ get_mean_speed (Swimming a d w lp cp)
     = Swimming_get_mean_speed (Swimming a d w lp cp)
  /\ Swimming_get_mean_speed (Swimming a d w lp cp)
     = Spec.mean_speed_swimming lp cp d
  /\ raises_only (eq OverflowError)
       (get_spent_calories libm_pow (Swimming a d w lp cp))
  /\ (forall km fd fw,
       lp *! cp /! Int 1000 = Ok (Float km) ->
       to_float d = Ok fd -> to_float w = Ok fw ->
       get_spent_calories libm_pow (Swimming a d w lp cp)
       = Ok (VNum (Float ((km / fd + 1.1) * 2 * fw * fd)))).
Proof.
  intros Hd.
  split; [| split; [reflexivity | split; [reflexivity | split]]].
  - cbn [get_spent_calories]. unfold Swimming_get_spent_calories.
    cbn [CALORIES_MEAN_SPEED_MULTIPLIER CALORIES_MEAN_SPEED_SHIFT
         weight duration].
    destruct (get_mean_speed (Swimming a d w lp cp)); reflexivity.
  - cbn [get_spent_calories]. apply fmap_overflow.
    unfold Swimming_get_spent_calories.
    cbn [CALORIES_MEAN_SPEED_MULTIPLIER CALORIES_MEAN_SPEED_SHIFT
         weight duration].
    repeat (apply mul_overflow; [| apply lit_overflow]).
    apply add_overflow; [| apply lit_overflow].
    apply get_mean_speed_overflow. exact Hd.
  - intros km fd fw Hkm Hfd Hw.
    cbn [get_spent_calories]. unfold Swimming_get_spent_calories.
    cbn [CALORIES_MEAN_SPEED_MULTIPLIER CALORIES_MEAN_SPEED_SHIFT
         weight duration get_mean_speed].
    unfold Swimming_get_mean_speed.
    cbn [length_pool count_pool M_IN_KM duration].
    unfold M_IN_KM, Training_M_IN_KM.
    change (Ok lp) with (lit lp). change (Ok cp) with (lit cp).
    rewrite Hkm. unfold fmap, lift2, lit. cbn [bind].
    rewrite (truediv_positive km d Hd), Hfd.
    unfold Swimming_CALORIES_MEAN_SPEED_SHIFT. cbn [bind py_add to_float].
    change (py_mul (Float (km / fd + 1.1))
              Swimming_CALORIES_MEAN_SPEED_MULTIPLIER)
      with (Ok (Float ((km / fd + 1.1) * 2))).
    cbn [bind]. rewrite mul_float_l, Hw. cbn [bind].
    rewrite mul_float_l, Hfd. reflexivity.
Qed.

(** *** Walking: the squared speed and the height *)

Lemma float_pow_2_no_zero_division
  (libm_pow : float -> float -> float * errno) (f : float) :
  raises_only (fun e => e <> ZeroDivisionError) (float_pow_2 libm_pow f).
Proof.
  unfold float_pow_2. intros e.
  destruct (is_nan f); [discriminate |].
  destruct (is_infinity f); [discriminate |].
  destruct (f =? 0)%float; [discriminate |].
  destruct (_ =? 1)%float; [discriminate |].
  destruct (libm_pow _ _) as [ix [| |]];
    repeat match goal with
           | |- context [if ?c then _ else _] => destruct c
           end;
    intros [= <-]; discriminate.
Qed.

Lemma pow_2_no_zero_division
  (libm_pow : float -> float -> float * errno) (a : res num) :
  raises_only (fun e => e <> ZeroDivisionError) a ->
  raises_only (fun e => e <> ZeroDivisionError) (pow_2 libm_pow a).
Proof.
  intros Ha. apply raises_only_bind; [exact Ha |]. intros [z | f] _.
  - apply raises_only_Ok.
  - apply raises_only_bind; [apply float_pow_2_no_zero_division |].
    intros; apply raises_only_Ok.
Qed.

(** The square of a product with a float constant is a float. *)
Lemma pow_2_mul_float (libm_pow : float -> float -> float * errno)
  (a : res num) (k : float) (v : num) :
  pow_2 libm_pow (a *! Float k) = Ok v -> exists x, v = Float x.
Proof.
  unfold pow_2, lift2, lit. destruct a as [x | e]; cbn [bind];
    [| discriminate].
  rewrite mul_float_r.
  destruct (to_float x); cbn [bind py_pow_2]; [| discriminate].
  destruct (float_pow_2 _ _); cbn [bind]; [| discriminate].
  intros [= <-]. eexists. reflexivity.
Qed.

Lemma overflow_no_zero_division {A : Type} (m : res A) :
  raises_only (eq OverflowError) m ->
  raises_only (fun e => e <> ZeroDivisionError) m.
Proof.
  intros H. apply (raises_only_weaken _ _ _ H). intros e <-. discriminate.
Qed.

(** C7: with [duration_hours > 0] and a height whose hundredth is a
    non-zero divisor, a walking session spends
    [(0.035 * weight_kg + (mean_speed_kmh * 0.278)^2 / (height_cm / 100)
      * 0.029 * weight_kg) * (duration_hours * 60)]
    with the mean speed of the same session; no division by zero can
    occur. *)
Theorem SportsWalking_get_spent_calories_formula
  (libm_pow : float -> float -> float * errno) (a d w h : num) :
  Spec.positive d = true ->
  Spec.height_divides h = true ->
  get_spent_calories libm_pow (SportsWalking a d w h)
  = (mean_speed_kmh <- get_mean_speed (SportsWalking a d w h) ;;
     fmap VNum (Spec.calories_walking libm_pow mean_speed_kmh w h d))
  /\ raises_only (fun e => e <> ZeroDivisionError)
       (get_spent_calories libm_pow (SportsWalking a d w h)).
Proof.
  intros Hd Hh.
  pose proof (get_mean_speed_overflow (SportsWalking a d w h) Hd) as Hms.
  split.
  - cbn [get_spent_calories]. unfold SportsWalking_get_spent_calories.
    cbn [CALORIES_WEIGHT_MULTIPLIER CALORIES_SPEED_HEIGHT_MULTIPLIER
         KMH_IN_MSEC CM_IN_M height weight duration MIN_IN_H].
    destruct (get_mean_speed (SportsWalking a d w h)) as [ms | e];
      [reflexivity |].
    rewrite <- (Hms e eq_refl).
    unfold lift2, lit, pow_2, fmap. cbn [bind].
    pose proof (py_mul_overflow SportsWalking_CALORIES_WEIGHT_MULTIPLIER w)
      as Hw.
    destruct (py_mul SportsWalking_CALORIES_WEIGHT_MULTIPLIER w) as [t | e'];
      cbn [bind]; [reflexivity |].
    rewrite <- (Hw e' eq_refl). reflexivity.
  - cbn [get_spent_calories].
    apply raises_only_bind; [| intros; apply raises_only_Ok].
    unfold SportsWalking_get_spent_calories.
    cbn [CALORIES_WEIGHT_MULTIPLIER CALORIES_SPEED_HEIGHT_MULTIPLIER
         KMH_IN_MSEC CM_IN_M height weight duration MIN_IN_H].
    assert (Hlit : forall x : num,
              raises_only (fun e => e <> ZeroDivisionError) (lit x))
      by (intros; apply raises_only_Ok).
    assert (Hmul : forall x y : res num,
              raises_only (fun e => e <> ZeroDivisionError) x ->
              raises_only (fun e => e <> ZeroDivisionError) y ->
              raises_only (fun e => e <> ZeroDivisionError) (x *! y)).
    { intros x y Hx Hy. apply lift2_raises_only; [exact Hx | exact Hy |].
      intros. apply overflow_no_zero_division, py_mul_overflow. }
    apply Hmul; [| apply Hmul; apply Hlit].
    apply lift2_raises_only;
      [apply Hmul; apply Hlit
      | | intros; apply overflow_no_zero_division, py_add_overflow].
    apply Hmul; [| apply Hlit]. apply Hmul; [| apply Hlit].
    unfold Spec.height_divides in Hh.
    apply lift2_raises_only.
    + apply pow_2_no_zero_division. apply Hmul; [| apply Hlit].
      apply overflow_no_zero_division. exact Hms.
    + unfold lift2, lit. cbn [bind].
      change SportsWalking_CM_IN_M with (Int 100).
      destruct (py_truediv h (Int 100)); [apply raises_only_Ok |].
      discriminate Hh.
    + intros x y _ Hy. unfold lift2, lit in Hy. cbn [bind] in Hy.
      change SportsWalking_CM_IN_M with (Int 100) in Hy.
      rewrite Hy in Hh. apply negb_true_iff in Hh.
      apply overflow_no_zero_division, py_truediv_overflow. exact Hh.
Qed.

(** A zero height divided by 100 is a zero float. *)
Lemma zero_height_over_100 (h : num) :
  Spec.is_zero h = true ->
  exists q, py_truediv h (Int 100) = Ok (Float q)
            /\ Spec.is_zero (Float q) = true.
Proof.
  destruct h as [z | f]; cbn [Spec.is_zero].
  - intros Hz. apply Z.eqb_eq in Hz. subst z.
    exists 0%float. split; reflexivity.
  - intros Hf. exists (f / 100)%float. split.
    + cbn [py_truediv to_float bind].
      change (int_to_float 100) with (Ok 100%float). cbn [bind].
      rewrite float_div_nonzero by reflexivity. reflexivity.
    + rewrite float_eqb_0 in Hf. rewrite float_eqb_0, div_spec.
      destruct (Prim2SF f) as [s | | |]; try discriminate Hf.
      destruct (Prim2SF 100) eqn:E; try (vm_compute in E; discriminate E).
      reflexivity.
Qed.

(** C10: a walking session whose height is zero never gets its calories:
    the call always raises, and it raises [ZeroDivisionError] whenever
    the terms evaluated before the division (0.035 * weight and the
    squared speed) have values; a positive duration does not prevent it. *)
Theorem SportsWalking_zero_height
  (libm_pow : float -> float -> float * errno) (a d w h : num) :
  Spec.is_zero h = true ->
  is_ok (get_spent_calories libm_pow (SportsWalking a d w h)) = false
  /\ (forall t v,
       SportsWalking_CALORIES_WEIGHT_MULTIPLIER *! w = Ok t ->
       pow_2 libm_pow (get_mean_speed (SportsWalking a d w h)
                       *! SportsWalking_KMH_IN_MSEC) = Ok v ->
       get_spent_calories libm_pow (SportsWalking a d w h)
       = Raise ZeroDivisionError)
  /\ (exists a' d' w',
       Spec.positive d' = true
       /\ get_spent_calories libm_pow (SportsWalking a' d' w' h)
          = Raise ZeroDivisionError).
Proof.
  intros Hh.
  destruct (zero_height_over_100 h Hh) as (q & Hq & Hq0).
  assert (Hdiv : forall a0 d0 w0 (sq : res num),
            sq = pow_2 libm_pow (get_mean_speed (SportsWalking a0 d0 w0 h)
                                 *! SportsWalking_KMH_IN_MSEC) ->
            sq /! (lit h /! lit SportsWalking_CM_IN_M)
            = match sq with
              | Ok _ => Raise ZeroDivisionError
              | Raise e => Raise e
              end).
  { intros a0 d0 w0 sq Hsq. unfold lift2 at 1.
    destruct sq as [v | e]; cbn [bind]; [| reflexivity].
    symmetry in Hsq. apply pow_2_mul_float in Hsq. destruct Hsq as [x ->].
    unfold lift2, lit. cbn [bind].
    change SportsWalking_CM_IN_M with (Int 100). rewrite Hq. cbn [bind].
    apply py_truediv_by_zero. exact Hq0. }
  assert (Hcal : forall a0 d0 w0,
            get_spent_calories libm_pow (SportsWalking a0 d0 w0 h)
            = (t <- SportsWalking_CALORIES_WEIGHT_MULTIPLIER *! w0 ;;
               match pow_2 libm_pow
                       (get_mean_speed (SportsWalking a0 d0 w0 h)
                        *! SportsWalking_KMH_IN_MSEC) with
               | Ok _ => Raise ZeroDivisionError
               | Raise e => Raise e
               end)).
  { intros a0 d0 w0. cbn [get_spent_calories].
    unfold SportsWalking_get_spent_calories.
    cbn [CALORIES_WEIGHT_MULTIPLIER CALORIES_SPEED_HEIGHT_MULTIPLIER
         KMH_IN_MSEC CM_IN_M height weight duration MIN_IN_H].
    unfold lit in *.
    rewrite (Hdiv a0 d0 w0 _ eq_refl).
    unfold fmap, lift2. cbn [bind].
    destruct (py_mul SportsWalking_CALORIES_WEIGHT_MULTIPLIER w0);
      cbn [bind]; [| reflexivity].
    destruct (pow_2 _ _); reflexivity. }
  split; [| split].
  - rewrite Hcal.
    destruct (_ *! _); cbn [bind]; [| reflexivity].
    destruct (pow_2 _ _); reflexivity.
  - intros t v Ht Hv. rewrite Hcal, Ht. cbn [bind]. rewrite Hv. reflexivity.
  - exists (Int 0), (Int 1), (Int 1). split; [reflexivity |].
    rewrite Hcal. reflexivity.
Qed.

(** ** The report *)

Lemma digit_char_is_digit (d : Z) :
  (0 <= d < 10)%Z -> Spec.is_digit (digit_char d) = true.
Proof.
  intros H.
  assert (E : (d = 0 \/ d = 1 \/ d = 2 \/ d = 3 \/ d = 4 \/ d = 5
               \/ d = 6 \/ d = 7 \/ d = 8 \/ d = 9)%Z) by lia.
  repeat (destruct E as [-> | E]; [reflexivity |]). subst d. reflexivity.
Qed.

Lemma all_digits_app (s1 s2 : string) :
  Spec.all_digits (s1 ++ s2)
  = Spec.all_digits s1 && Spec.all_digits s2.
Proof.
  induction s1 as [| c s1 IH]; simpl; [reflexivity |].
  rewrite IH, andb_assoc. reflexivity.
Qed.

Lemma string_length_app (s1 s2 : string) :
  String.length (s1 ++ s2) = (String.length s1 + String.length s2)%nat.
Proof. induction s1 as [| c s1 IH]; simpl; congruence. Qed.

Lemma frac_digits_all_digits (p : nat) (n : Z) :
  Spec.all_digits (frac_digits p n) = true.
Proof.
  revert n. induction p as [| p IH]; intros n; cbn [frac_digits];
    [reflexivity |].
  rewrite all_digits_app, IH. cbn [Spec.all_digits andb].
  rewrite digit_char_is_digit by (apply Z.mod_pos_bound; lia). reflexivity.
Qed.

Lemma frac_digits_length (p : nat) (n : Z) :
  String.length (frac_digits p n) = p.
Proof.
  revert n. induction p as [| p IH]; intros n; cbn [frac_digits];
    [reflexivity |].
  rewrite string_length_app, IH. cbn [String.length]. lia.
Qed.

Lemma string_of_uint_all_digits (u : Decimal.uint) :
  Spec.all_digits (NilEmpty.string_of_uint u) = true.
Proof. induction u; simpl; auto. Qed.

Lemma int_digits_all_digits (n : Z) :
  Spec.all_digits (int_digits n) = true.
Proof.
  unfold int_digits, NilZero.string_of_uint.
  destruct (N.to_uint (Z.to_N n)); try reflexivity;
    apply (string_of_uint_all_digits (_ _)).
Qed.

Lemma int_digits_nonempty (n : Z) :
  exists c s, int_digits n = String c s.
Proof.
  unfold int_digits, NilZero.string_of_uint.
  destruct (N.to_uint (Z.to_N n)); simpl; eexists; eexists; reflexivity.
Qed.

Lemma split_at_point_digits (ip fp : string) :
  Spec.all_digits ip = true ->
  Spec.split_at_point (ip ++ String "." fp) = Some (ip, fp).
Proof.
  induction ip as [| c ip IH]; simpl; [reflexivity |].
  intros H. apply andb_true_iff in H. destruct H as [Hc Hip].
  destruct (Ascii.eqb_spec c ".") as [-> | _]; [discriminate Hc |].
  rewrite (IH Hip). reflexivity.
Qed.

(** A sign, some digits, a point and [p] digits form a fixed-point
    numeral with [p] decimals. *)
Lemma is_fixed_point_intro (p : nat) (sign : bool) (c : ascii)
  (ip fp : string) :
  Spec.all_digits (String c ip) = true ->
  Spec.all_digits fp = true ->
  String.length fp = p ->
  Spec.is_fixed_point p (sign_str sign ++ String c ip ++ String "." fp)
  = true.
Proof.
  intros Hip Hfp Hlen. unfold Spec.is_fixed_point.
  assert (Hstrip : Spec.strip_minus
                     (sign_str sign ++ String c ip ++ String "." fp)
                   = String c ip ++ String "." fp).
  { destruct sign; [reflexivity |]. simpl.
    destruct (Ascii.eqb_spec c "-") as [-> | Hne]; [discriminate Hip |].
    destruct c as [[] [] [] [] [] [] [] []]; try reflexivity.
    contradiction Hne. reflexivity. }
  rewrite Hstrip, (split_at_point_digits _ _ Hip), Hip, Hfp, Hlen.
  rewrite Nat.eqb_refl. reflexivity.
Qed.

(** The fixed-point rendering of a finite float has the fixed-point
    syntax, with exactly the requested number of decimals. *)
Lemma format_f_fixed (p : nat) (f : float) :
  Spec.is_finite f = true ->
  Spec.is_fixed_point (S p) (format_f (S p) f) = true.
Proof.
  unfold Spec.is_finite, format_f.
  destruct (Prim2SF f) as [s | s | | s m e]; try discriminate; intros _.
  - apply (is_fixed_point_intro (S p) s "0" EmptyString);
      [reflexivity | apply frac_digits_all_digits | apply frac_digits_length].
  - cbv zeta.
    destruct (int_digits_nonempty
                (scaled_round (S p) m e / 10 ^ Z.of_nat (S p)))
      as (c & ip & E).
    pose proof (int_digits_all_digits
                  (scaled_round (S p) m e / 10 ^ Z.of_nat (S p))) as Hd.
    rewrite E in *.
    apply (is_fixed_point_intro (S p) s c ip);
      [exact Hd | apply frac_digits_all_digits | apply frac_digits_length].
Qed.

Lemma finite_number_renders (v : value) :
  Spec.finite_number v = true -> exists s, Spec.renders_fixed3 v s.
Proof.
  unfold Spec.renders_fixed3. destruct v as [[z | f] | name]; simpl.
  - destruct (int_to_float z) as [f | e] eqn:E; [| discriminate].
    intros _. exists (format_f 3 f). split; [reflexivity |].
    apply format_f_fixed, (int_to_float_finite z f E).
  - intros H. exists (format_f 3 f). split; [reflexivity |].
    apply format_f_fixed, H.
  - discriminate.
Qed.

(** C9 (amended): for every report whose four numeric fields are finite
    numbers, [get_message] is the fixed template of the code, in its own
    wording, around the class name and the four renderings; each
    rendering is fixed-point with a dot and exactly three decimals,
    whatever the magnitude. *)
Theorem get_message_template (m : InfoMessage.t) :
  Spec.finite_number (InfoMessage.duration m) = true ->
  Spec.finite_number (InfoMessage.distance m) = true ->
  Spec.finite_number (InfoMessage.speed m) = true ->
  Spec.finite_number (InfoMessage.calories m) = true ->
  exists duration distance speed calories : string,
    Spec.renders_fixed3 (InfoMessage.duration m) duration
    /\ Spec.renders_fixed3 (InfoMessage.distance m) distance
    /\ Spec.renders_fixed3 (InfoMessage.speed m) speed
    /\ Spec.renders_fixed3 (InfoMessage.calories m) calories
    /\ InfoMessage.get_message m
       = Ok ("Тип тренировки: " ++ InfoMessage.training_type m
             ++ "; Длительность: " ++ duration
             ++ " ч.; Дистанция: " ++ distance
             ++ " км; Ср. скорость: " ++ speed
             ++ " км/ч; Потрачено ккал: " ++ calories ++ ".").
Proof.
  intros H1 H2 H3 H4.
  destruct (finite_number_renders _ H1) as (s1 & E1 & F1).
  destruct (finite_number_renders _ H2) as (s2 & E2 & F2).
  destruct (finite_number_renders _ H3) as (s3 & E3 & F3).
  destruct (finite_number_renders _ H4) as (s4 & E4 & F4).
  exists s1, s2, s3, s4. unfold Spec.renders_fixed3.
  repeat (split; [split; assumption |]).
  unfold InfoMessage.get_message, InfoMessage.MESSAGE.
  cbn [InfoMessage.format]. rewrite E1, E2, E3, E4. reflexivity.
Qed.

(** C9 as stated fails twice: the text around the fields is not the
    specification's wording, and a field that is an infinity (here the
    distance of a session the program accepts) is rendered without any
    decimal. *)
Lemma get_message_not_spec_template :
  (show_training_info ref_pow running_sample = Ok running_report
   /\ InfoMessage.get_message running_report
      = Ok "Тип тренировки: Running; Длительность: 1.000 ч.; Дистанция: 9.750 км; Ср. скорость: 9.750 км/ч; Потрачено ккал: 797.805."
   /\ InfoMessage.format Spec.MESSAGE running_report
      = Ok "Session type: Running; Duration: 1.000 h.; Distance: 9.750 km; Mean speed: 9.750 km/h; Calories burned: 797.805."
   /\ InfoMessage.get_message running_report
      <> InfoMessage.format Spec.MESSAGE running_report)
  /\ (show_training_info ref_pow far_swim = Ok far_swim_report
      /\ InfoMessage.get_message far_swim_report
         = Ok "Тип тренировки: Swimming; Длительность: 1.000 ч.; Дистанция: inf км; Ср. скорость: 1.000 км/ч; Потрачено ккал: 336.000."
      /\ format_fixed 3 (InfoMessage.distance far_swim_report) = Ok "inf"
      /\ Spec.is_fixed_point 3 "inf" = false).
Proof.
  repeat split; try reflexivity. vm_compute. discriminate.
Qed.

(** ** The driver *)

(** The three lines the program prints, with the reference [pow]. *)
Example driver_output :
  run ref_pow packages
  = ([ "Тип тренировки: Swimming; Длительность: 1.000 ч.; Дистанция: 0.994 км; Ср. скорость: 1.000 км/ч; Потрачено ккал: 336.000.";
       "Тип тренировки: Running; Длительность: 1.000 ч.; Дистанция: 9.750 км; Ср. скорость: 9.750 км/ч; Потрачено ккал: 797.805.";
       "Тип тренировки: SportsWalking; Длительность: 1.000 ч.; Дистанция: 5.850 км; Ср. скорость: 5.850 км/ч; Потрачено ккал: 349.252." ],
     None).
Proof. vm_compute. reflexivity. Qed.

(* ================================================================== *)
(** * Further properties of the code *)
(* ================================================================== *)

(** ** [read_package] as a whole *)

(** What a successful call tells about its arguments. *)
Lemma read_package_inv (workout_type : string) (data : list num)
  (t : training) :
  read_package workout_type data = Ok t ->
  (workout_type = "SWM"
   /\ exists a d w lp cp,
        data = [a; d; w; lp; cp] /\ t = Swimming a d w lp cp)
  \/ (workout_type = "RUN"
      /\ exists a d w, data = [a; d; w] /\ t = Running a d w)
  \/ (workout_type = "WLK"
      /\ exists a d w h,
           data = [a; d; w; h] /\ t = SportsWalking a d w h).
Proof.
  unfold read_package. simpl dict_get.
  destruct (String.eqb_spec workout_type "SWM") as [-> | _].
  { destruct data as [| a [| d [| w [| lp [| cp [| ? ?]]]]]];
      try discriminate. intros [= <-]. left. eauto 10. }
  destruct (String.eqb_spec workout_type "RUN") as [-> | _].
  { destruct data as [| a [| d [| w [| ? ?]]]]; try discriminate.
    intros [= <-]. right. left. eauto 10. }
  destruct (String.eqb_spec workout_type "WLK") as [-> | _].
  { destruct data as [| a [| d [| w [| h [| ? ?]]]]]; try discriminate.
    intros [= <-]. right. right. eauto 10. }
  discriminate.
Qed.

(** X1: a known code with any other number of fields than its class has
    is rejected with [TypeError], whatever the fields are. *)
Theorem read_package_wrong_arity
  (workout_type : string) (n : nat) (data : list num) :
  In (workout_type, n) field_counts ->
  List.length data <> n ->
  read_package workout_type data = Raise TypeError.
Proof.
  intros Hin Hlen. destruct (read_package_arity data) as (H5 & H3 & H4).
  destruct Hin as [E | [E | [E | []]]]; injection E as <- <-; auto.
Qed.

(** X2: [read_package] returns an instance exactly for the three codes
    with the field count of their class; every other call raises. *)
Theorem read_package_ok_iff (workout_type : string) (data : list num) :
  is_ok (read_package workout_type data) = true
  <-> In (workout_type, List.length data) field_counts.
Proof.
  split.
  - destruct (read_package workout_type data) as [t | e] eqn:E;
      [intros _ | discriminate].
    destruct (read_package_inv _ _ _ E)
      as [(-> & a & d & w & lp & cp & -> & _)
         | [(-> & a & d & w & -> & _) | (-> & a & d & w & h & -> & _)]];
      simpl; auto.
  - intros [E | [E | [E | []]]]; injection E as <- Hlen.
    + destruct data as [| a [| d [| w [| lp [| cp [| ? ?]]]]]];
        try discriminate Hlen. reflexivity.
    + destruct data as [| a [| d [| w [| ? ?]]]];
        try discriminate Hlen. reflexivity.
    + destruct data as [| a [| d [| w [| h [| ? ?]]]]];
        try discriminate Hlen. reflexivity.
Qed.

(** X3: the instance determines the package: two calls that return the
    same instance had the same code and the same data. *)
Theorem read_package_injective
  (workout_type workout_type' : string) (data data' : list num)
  (t : training) :
  read_package workout_type data = Ok t ->
  read_package workout_type' data' = Ok t ->
  workout_type = workout_type' /\ data = data'.
Proof.
  intros H H'.
  destruct (read_package_inv _ _ _ H)
    as [(-> & a & d & w & lp & cp & -> & ->)
       | [(-> & a & d & w & -> & ->) | (-> & a & d & w & h & -> & ->)]];
    destruct (read_package_inv _ _ _ H')
      as [(-> & a' & d' & w' & lp' & cp' & -> & E)
         | [(-> & a' & d' & w' & -> & E)
           | (-> & a' & d' & w' & h' & -> & E)]];
    try discriminate E; injection E as -> -> ->; subst; split; reflexivity.
Qed.

(** ** The driver's loop *)

Lemma run_cons (libm_pow : float -> float -> float * errno)
  (package : string * list num) (rest : list (string * list num)) :
  run libm_pow (package :: rest)
  = match process libm_pow package with
    | Ok line =>
        let (lines, e) := run libm_pow rest in (line :: lines, e)
    | Raise e => ([], Some e)
    end.
Proof. destruct package as [workout_type data]. reflexivity. Qed.

(** X4: the loop over two lists in a row: when the first run ends
    without exception the second follows and its lines are appended;
    when the first run is ended by an exception nothing of the second
    list is processed. *)
Theorem run_app (libm_pow : float -> float -> float * errno)
  (ps1 ps2 : list (string * list num)) :
  run libm_pow (ps1 ++ ps2)%list
  = match run libm_pow ps1 with
    | (lines1, None) =>
        let (lines2, e) := run libm_pow ps2 in ((lines1 ++ lines2)%list, e)
    | (lines1, Some e) => (lines1, Some e)
    end.
Proof.
  induction ps1 as [| package rest IH].
  - simpl. destruct (run libm_pow ps2). reflexivity.
  - rewrite <- app_comm_cons, !run_cons.
    destruct (process libm_pow package) as [line | e]; [| reflexivity].
    rewrite IH. destruct (run libm_pow rest) as [lines1 [e |]];
      [reflexivity |].
    destruct (run libm_pow ps2). reflexivity.
Qed.

(** X5: the run ends without exception exactly when every package gives
    its line, and then the lines are those of the packages, in order;
    otherwise fewer lines than packages are printed. *)
Theorem run_lines (libm_pow : float -> float -> float * errno)
  (ps : list (string * list num)) :
  (snd (run libm_pow ps) = None
   <-> map (process libm_pow) ps = map Ok (fst (run libm_pow ps)))
  /\ (snd (run libm_pow ps) <> None ->
      (List.length (fst (run libm_pow ps)) < List.length ps)%nat).
Proof.
  induction ps as [| package rest [IHiff IHlt]].
  - simpl. repeat split; congruence.
  - rewrite run_cons. cbn [map].
    destruct (process libm_pow package) as [line | e].
    + destruct (run libm_pow rest) as [lines e] eqn:E. cbn [fst snd] in *.
      split.
      * rewrite IHiff. split; [intros ->; reflexivity |].
        intros [= H]. exact H.
      * intros H. specialize (IHlt H). cbn [List.length]. lia.
    + cbn [fst snd]. split.
      * split; [discriminate |]. cbn [map]. discriminate.
      * intros _. cbn [List.length]. lia.
Qed.

(** ** The kind of the results *)

Lemma py_truediv_float (a b : num) : float_valued (py_truediv a b).
Proof.
  intros v. destruct a as [x | x], b as [y | y]; simpl.
  - destruct (int_true_divide x y); simpl; [| discriminate].
    intros [= <-]. eexists. reflexivity.
  - destruct (int_to_float x); simpl; [| discriminate].
    destruct (float_div _ _); simpl; [| discriminate].
    intros [= <-]. eexists. reflexivity.
  - destruct (int_to_float y); simpl; [| discriminate].
    destruct (float_div _ _); simpl; [| discriminate].
    intros [= <-]. eexists. reflexivity.
  - destruct (float_div _ _); simpl; [| discriminate].
    intros [= <-]. eexists. reflexivity.
Qed.

Lemma truediv_float_valued (a b : res num) : float_valued (a /! b).
Proof.
  intros v. unfold lift2.
  destruct a as [x | e]; cbn [bind]; [| discriminate].
  destruct b as [y | e]; cbn [bind]; [| discriminate].
  apply py_truediv_float.
Qed.

Lemma lit_float_valued (k : float) : float_valued (lit (Float k)).
Proof. intros v [= <-]. eexists. reflexivity. Qed.

(** A product or a sum with a float on the left is a float. *)
Lemma mul_float_valued (a b : res num) :
  float_valued a -> float_valued (a *! b).
Proof.
  intros Ha v. unfold lift2.
  destruct a as [x | e]; cbn [bind]; [| discriminate].
  destruct (Ha x eq_refl) as [fx ->].
  destruct b as [y | e]; cbn [bind]; [| discriminate].
  rewrite mul_float_l.
  destruct (to_float y); cbn [bind]; [| discriminate].
  intros [= <-]. eexists. reflexivity.
Qed.

Lemma add_float_valued (a b : res num) :
  float_valued a -> float_valued (a +! b).
Proof.
  intros Ha v. unfold lift2.
  destruct a as [x | e]; cbn [bind]; [| discriminate].
  destruct (Ha x eq_refl) as [fx ->].
  destruct b as [y | e]; cbn [bind]; [| discriminate].
  destruct y as [z | fy]; cbn [py_add to_float bind].
  - destruct (int_to_float z); cbn [bind]; [| discriminate].
    intros [= <-]. eexists. reflexivity.
  - intros [= <-]. eexists. reflexivity.
Qed.

Lemma get_distance_float_valued (self : training) :
  float_valued (get_distance self).
Proof. apply truediv_float_valued. Qed.

Lemma get_mean_speed_float_valued (self : training) :
  float_valued (get_mean_speed self).
Proof. destruct self; apply truediv_float_valued. Qed.

Lemma subclass_calories_float_valued
  (libm_pow : float -> float -> float * errno) (self : training) :
  is_base self = false ->
  forall v, get_spent_calories libm_pow self = Ok v ->
            exists f, v = VNum (Float f).
Proof.
  intros Hbase v.
  assert (H : forall m : res num,
            float_valued m -> fmap VNum m = Ok v ->
            exists f, v = VNum (Float f)).
  { intros m Hm. unfold fmap.
    destruct m as [x | e]; cbn [bind]; [| discriminate].
    destruct (Hm x eq_refl) as [f ->]. intros [= <-]. eexists. reflexivity. }
  destruct self as [a d w | a d w | a d w h | a d w lp cp];
    [discriminate Hbase | ..]; cbn [get_spent_calories]; apply H.
  - unfold Running_get_spent_calories.
    apply mul_float_valued, truediv_float_valued.
  - unfold SportsWalking_get_spent_calories.
    cbn [CALORIES_WEIGHT_MULTIPLIER].
    apply mul_float_valued, add_float_valued, mul_float_valued.
    apply lit_float_valued.
  - unfold Swimming_get_spent_calories.
    cbn [CALORIES_MEAN_SPEED_SHIFT].
    do 3 apply mul_float_valued. apply add_float_valued.
    apply get_mean_speed_float_valued.
Qed.

(** X6: whatever mix of [int] and [float] the fields hold, a distance, a
    mean speed and the calories of a subclass are [float]s when they are
    returned; only the base class returns something that is no number. *)
Theorem results_are_floats
  (libm_pow : float -> float -> float * errno) (self : training) :
  float_valued (get_distance self)
  /\ float_valued (get_mean_speed self)
  /\ (forall v, get_spent_calories libm_pow self = Ok v ->
        if is_base self then v = VType "NotImplementedError"
        else exists f, v = VNum (Float f)).
Proof.
  split; [apply get_distance_float_valued |].
  split; [apply get_mean_speed_float_valued |].
  intros v Hv. destruct (is_base self) eqn:Hbase.
  - destruct self; try discriminate Hbase.
    cbn in Hv. injection Hv as <-. reflexivity.
  - apply (subclass_calories_float_valued libm_pow self Hbase v Hv).
Qed.

(** X7: what [read_package] builds never meets the base method: the
    calories of its instances, when returned, are a [float], never the
    class object. *)
Theorem read_package_calories_float
  (libm_pow : float -> float -> float * errno)
  (workout_type : string) (data : list num) (t : training) (v : value) :
  read_package workout_type data = Ok t ->
  get_spent_calories libm_pow t = Ok v ->
  is_base t = false /\ exists f, v = VNum (Float f).
Proof.
  intros Ht Hv.
  assert (Hbase : is_base t = false).
  { destruct (read_package_inv _ _ _ Ht)
      as [(_ & a & d & w & lp & cp & _ & ->)
         | [(_ & a & d & w & _ & ->) | (_ & a & d & w & h & _ & ->)]];
      reflexivity. }
  split; [exact Hbase |].
  apply (subclass_calories_float_valued libm_pow t Hbase v Hv).
Qed.

(** ** A duration of zero *)

(** X8: with a duration of zero the mean speed is never returned: the
    dividend is evaluated (the distance, or for swimming the pool
    distance) and then the division raises [ZeroDivisionError]. *)
Theorem get_mean_speed_zero_duration (self : training) :
  Spec.is_zero (duration self) = true ->
  get_mean_speed self
  = bind (match self with
          | Swimming _ _ _ lp cp => lp *! cp /! Int 1000
          | _ => get_distance self
          end)
      (fun _ => Raise ZeroDivisionError).
Proof.
  intros Hd.
  assert (H : forall m : res num,
            float_valued m ->
            m /! duration self
            = bind m (fun _ => Raise ZeroDivisionError)).
  { intros m Hm. unfold lift2, lit.
    destruct m as [x | e]; cbn [bind]; [| reflexivity].
    destruct (Hm x eq_refl) as [fx ->].
    apply py_truediv_by_zero. exact Hd. }
  destruct self as [a d w | a d w | a d w h | a d w lp cp];
    cbn [get_mean_speed]; try apply (H _ (get_distance_float_valued _)).
  apply (H (lit lp *! lit cp /! lit (Int 1000))).
  apply truediv_float_valued.
Qed.

Lemma lift2_not_ok_l (op : num -> num -> res num) (a b : res num) :
  is_ok a = false -> is_ok (lift2 op a b) = false.
Proof. destruct a; [discriminate | reflexivity]. Qed.

Lemma lift2_not_ok_r (op : num -> num -> res num) (a b : res num) :
  is_ok b = false -> is_ok (lift2 op a b) = false.
Proof.
  unfold lift2. destruct a; [| reflexivity].
  destruct b; [discriminate | reflexivity].
Qed.

Lemma fmap_not_ok {A B : Type} (f : A -> B) (m : res A) :
  is_ok m = false -> is_ok (fmap f m) = false.
Proof. destruct m; [discriminate | reflexivity]. Qed.

Lemma pow_2_not_ok (libm_pow : float -> float -> float * errno)
  (a : res num) :
  is_ok a = false -> is_ok (pow_2 libm_pow a) = false.
Proof. destruct a; [discriminate | reflexivity]. Qed.

Lemma get_mean_speed_zero_not_ok (self : training) :
  Spec.is_zero (duration self) = true ->
  is_ok (get_mean_speed self) = false.
Proof.
  intros Hd.
  assert (H : forall m : res num,
            float_valued m -> is_ok (m /! duration self) = false).
  { intros m Hm. unfold lift2, lit.
    destruct m as [x | e]; cbn [bind]; [| reflexivity].
    destruct (Hm x eq_refl) as [fx ->].
    rewrite py_truediv_by_zero by exact Hd. reflexivity. }
  destruct self; cbn [get_mean_speed];
    try apply (H _ (get_distance_float_valued _)).
  unfold Swimming_get_mean_speed. apply H, truediv_float_valued.
Qed.

(** X9: a session with a duration of zero yields nothing: the calories
    of every subclass, the report and the printed line all end in an
    exception. *)
Theorem zero_duration_aborts
  (libm_pow : float -> float -> float * errno) (self : training) :
  Spec.is_zero (duration self) = true ->
  (is_base self = false ->
   is_ok (get_spent_calories libm_pow self) = false)
  /\ is_ok (show_training_info libm_pow self) = false
  /\ is_ok (main libm_pow self) = false.
Proof.
  intros Hd. pose proof (get_mean_speed_zero_not_ok self Hd) as Hms.
  assert (Hshow : is_ok (show_training_info libm_pow self) = false).
  { unfold show_training_info.
    destruct (get_distance self); cbn [bind]; [| reflexivity].
    destruct (get_mean_speed self); [discriminate Hms | reflexivity]. }
  split; [| split; [exact Hshow |]].
  - intros Hbase.
    destruct self as [a d w | a d w | a d w h | a d w lp cp];
      [discriminate Hbase | ..]; cbn [get_spent_calories];
      apply fmap_not_ok.
    + unfold Running_get_spent_calories.
      do 4 apply lift2_not_ok_l. apply lift2_not_ok_r. exact Hms.
    + unfold SportsWalking_get_spent_calories.
      apply lift2_not_ok_l, lift2_not_ok_r.
      do 3 apply lift2_not_ok_l. apply pow_2_not_ok.
      apply lift2_not_ok_l. exact Hms.
    + unfold Swimming_get_spent_calories.
      do 4 apply lift2_not_ok_l. exact Hms.
  - unfold main.
    destruct (show_training_info libm_pow self);
      [discriminate Hshow | reflexivity].
Qed.

(** ** When a report can be rendered *)

Lemma format_fixed_ok (p : nat) (v : value) :
  is_ok (format_fixed p v) = formattable v.
Proof.
  destruct v as [[z | f] | name]; simpl; try reflexivity.
  destruct (int_to_float z); reflexivity.
Qed.


Lemma get_message_ok (m : InfoMessage.t) :
  is_ok (InfoMessage.get_message m)
  = formattable (InfoMessage.duration m)
    && formattable (InfoMessage.distance m)
    && formattable (InfoMessage.speed m)
    && formattable (InfoMessage.calories m).
Proof.
  rewrite <- !(format_fixed_ok 3).
  unfold InfoMessage.get_message, InfoMessage.MESSAGE.
  cbn [InfoMessage.format].
  destruct (format_fixed 3 (InfoMessage.duration m)); [| reflexivity].
  destruct (format_fixed 3 (InfoMessage.distance m)); [| reflexivity].
  destruct (format_fixed 3 (InfoMessage.speed m)); [| reflexivity].
  destruct (format_fixed 3 (InfoMessage.calories m)); reflexivity.
Qed.


(** ** The printed line *)

(** X11: a line is printed exactly when the three methods return and
    the four values can be rendered, and it is then the template filled
    with the class name, the duration as given, the distance, the mean
    speed and the calories, each under [.3f]. *)
Theorem main_line (libm_pow : float -> float -> float * errno)
  (t : training) (line : string) :
  main libm_pow t = Ok line <->
  exists (dist mean_speed : num) (spent : value)
         (s_duration s_distance s_speed s_calories : string),
    get_distance t = Ok dist
    /\ get_mean_speed t = Ok mean_speed
    /\ get_spent_calories libm_pow t = Ok spent
    /\ format_fixed 3 (VNum (duration t)) = Ok s_duration
    /\ format_fixed 3 (VNum dist) = Ok s_distance
    /\ format_fixed 3 (VNum mean_speed) = Ok s_speed
    /\ format_fixed 3 spent = Ok s_calories
    /\ line = "Тип тренировки: " ++ class_name t
              ++ "; Длительность: " ++ s_duration
              ++ " ч.; Дистанция: " ++ s_distance
              ++ " км; Ср. скорость: " ++ s_speed
              ++ " км/ч; Потрачено ккал: " ++ s_calories ++ ".".
Proof.
  split;
    [| intros (dist & ms & spent & s1 & s2 & s3 & s4
               & E1 & E2 & E3 & F1 & F2 & F3 & F4 & ->);
       unfold main, show_training_info; rewrite E1, E2, E3; cbn [bind];
       unfold InfoMessage.get_message, InfoMessage.MESSAGE;
       cbn [InfoMessage.format InfoMessage.training_type
            InfoMessage.duration InfoMessage.distance InfoMessage.speed
            InfoMessage.calories];
       rewrite F1, F2, F3, F4; reflexivity].
  unfold main, show_training_info.
  destruct (get_distance t) as [dist | e] eqn:E1; cbn [bind];
    [| discriminate].
  destruct (get_mean_speed t) as [ms | e] eqn:E2; cbn [bind];
    [| discriminate].
  destruct (get_spent_calories libm_pow t) as [spent | e] eqn:E3;
    cbn [bind]; [| discriminate].
  unfold InfoMessage.get_message, InfoMessage.MESSAGE.
  cbn [InfoMessage.format InfoMessage.training_type InfoMessage.duration
       InfoMessage.distance InfoMessage.speed InfoMessage.calories].
  destruct (format_fixed 3 (VNum (duration t))) as [s1 | e] eqn:F1;
    [| discriminate].
  destruct (format_fixed 3 (VNum dist)) as [s2 | e] eqn:F2;
    [| discriminate].
  destruct (format_fixed 3 (VNum ms)) as [s3 | e] eqn:F3; [| discriminate].
  destruct (format_fixed 3 spent) as [s4 | e] eqn:F4; [| discriminate].
  intros [= <-]. exists dist, ms, spent, s1, s2, s3, s4.
  repeat (split; [reflexivity || assumption |]). reflexivity.
Qed.

(** Dividing a float by a number that is not zero: one conversion, one
    rounded quotient. *)
Lemma truediv_nonzero (x : float) (d : num) :
  Spec.is_zero d = false ->
  py_truediv (Float x) d = (fd <- to_float d ;; Ok (Float (x / fd))).
Proof.
  intros Hd. destruct d as [z | fd]; cbn [py_truediv to_float bind].
  - destruct (int_to_float z) as [fd | e] eqn:Ez; cbn [bind];
      [| reflexivity].
    rewrite float_div_nonzero; [reflexivity |].
    rewrite (int_to_float_eqb_0 z fd Ez). exact Hd.
  - rewrite float_div_nonzero; [reflexivity | exact Hd].
Qed.

(** X12: for a record of the base class [main] never prints: the class
    object its calories method returns cannot be rendered.  When the
    action count and a non-zero duration have float values, the
    exception is the [TypeError] of the format. *)
Theorem main_base_never_prints
  (libm_pow : float -> float -> float * errno) (a d w : num) :
  is_ok (main libm_pow (Training a d w)) = false
  /\ (Spec.is_zero d = false ->
      is_ok (to_float a) = true -> is_ok (to_float d) = true ->
      main libm_pow (Training a d w) = Raise TypeError).
Proof.
  split.
  - unfold main, show_training_info.
    destruct (get_distance _); cbn [bind]; [| reflexivity].
    destruct (get_mean_speed _); cbn [bind]; [| reflexivity].
    cbn [get_spent_calories Training_get_spent_calories bind].
    rewrite get_message_ok. cbn [InfoMessage.calories formattable].
    apply andb_false_r.
  - intros Hd Ha Hfd.
    destruct (to_float a) as [fa | e] eqn:Ea; [| discriminate Ha].
    destruct (to_float d) as [fd | e] eqn:Ed; [| discriminate Hfd].
    unfold main, show_training_info.
    cbn [get_mean_speed]. unfold Training_get_mean_speed, lift2, lit.
    rewrite get_distance_eval. cbn [action]. rewrite Ea. cbn [bind].
    rewrite truediv_nonzero by exact Hd. cbn [duration]. rewrite Ed.
    cbn [bind get_spent_calories Training_get_spent_calories].
    unfold InfoMessage.get_message, InfoMessage.MESSAGE.
    cbn [InfoMessage.format InfoMessage.training_type InfoMessage.duration
         InfoMessage.distance InfoMessage.speed InfoMessage.calories].
    assert (Hdur : exists s, format_fixed 3 (VNum d) = Ok s).
    { destruct d as [z | f]; cbn [format_fixed].
      - cbn [to_float] in Ed. rewrite Ed. eexists. reflexivity.
      - eexists. reflexivity. }
    destruct Hdur as [s ->]. reflexivity.
Qed.

(** ** Which exceptions a subclass session can meet *)












(** ** No action at all *)

(** X14: a session with an action count of zero has a distance of zero
    (a float zero), in every class. *)
Theorem zero_action_zero_distance (self : training) :
  Spec.is_zero (action self) = true ->
  exists f, get_distance self = Ok (Float f)
            /\ Spec.is_zero (Float f) = true.
Proof.
  intros Ha. rewrite get_distance_eval.
  destruct (action self) as [z | f]; cbn [Spec.is_zero to_float] in *.
  - apply Z.eqb_eq in Ha. subst z.
    change (int_to_float 0) with (Ok 0%float). cbn [bind].
    eexists. split; [reflexivity |]. destruct self; reflexivity.
  - cbn [bind]. eexists. split; [reflexivity |].
    rewrite float_eqb_0 in Ha. rewrite float_eqb_0, div_spec, mul_spec.
    destruct (Prim2SF f) as [s | | |]; try discriminate Ha.
    destruct (Prim2SF 1000) eqn:E1; try (vm_compute in E1; discriminate E1).
    destruct self; cbn [Spec.distance_per_action_km];
      match goal with
      | |- context [Prim2SF ?k] =>
          destruct (Prim2SF k) eqn:E2;
          try (vm_compute in E2; discriminate E2)
      end; reflexivity.
Qed.

(** ** Sessions that cannot fail *)

Lemma float_has_value (m : res num) : returns_float m -> has_float_value m.
Proof. intros [f ->]. exists (Float f). split; reflexivity. Qed.

Lemma lit_has_value (n : num) :
  is_ok (to_float n) = true -> has_float_value (lit n).
Proof. intros H. exists n. split; [reflexivity | exact H]. Qed.

Lemma lit_returns_float (k : float) : returns_float (lit (Float k)).
Proof. exists k. reflexivity. Qed.

Lemma mul_returns_float_l (a b : res num) :
  returns_float a -> has_float_value b -> returns_float (a *! b).
Proof.
  intros [x ->] (n & -> & Hn). unfold lift2. cbn [bind].
  rewrite mul_float_l. destruct (to_float n); [| discriminate Hn].
  eexists. reflexivity.
Qed.

Lemma mul_returns_float_r (a b : res num) :
  has_float_value a -> returns_float b -> returns_float (a *! b).
Proof.
  intros (n & -> & Hn) [y ->]. unfold lift2. cbn [bind].
  rewrite mul_float_r. destruct (to_float n); [| discriminate Hn].
  eexists. reflexivity.
Qed.

Lemma add_returns_float (a b : res num) :
  returns_float a -> returns_float b -> returns_float (a +! b).
Proof. intros [x ->] [y ->]. eexists. reflexivity. Qed.

Lemma truediv_returns_float (a b : res num) :
  returns_float a -> has_float_value b ->
  (forall n, b = Ok n -> Spec.is_zero n = false) ->
  returns_float (a /! b).
Proof.
  intros [x ->] (n & -> & Hn) Hz. unfold lift2. cbn [bind].
  rewrite truediv_nonzero by (apply Hz; reflexivity).
  destruct (to_float n); [| discriminate Hn]. eexists. reflexivity.
Qed.

Lemma truediv_lit_returns_float (a : res num) (n : num) :
  returns_float a -> is_ok (to_float n) = true ->
  Spec.is_zero n = false -> returns_float (a /! n).
Proof.
  intros Ha Hn Hz. apply truediv_returns_float;
    [exact Ha | apply lit_has_value, Hn |].
  intros m [= <-]. exact Hz.
Qed.

Lemma get_distance_returns_float (self : training) :
  is_ok (to_float (action self)) = true ->
  returns_float (get_distance self).
Proof.
  intros Ha. unfold get_distance, Training_get_distance.
  apply truediv_lit_returns_float; [| reflexivity | reflexivity].
  apply mul_returns_float_r; [apply lit_has_value, Ha |].
  destruct self; apply lit_returns_float.
Qed.

(** A report of floats is always rendered. *)
Lemma main_of_floats (libm_pow : float -> float -> float * errno)
  (self : training) (fd : float) :
  duration self = Float fd ->
  returns_float (get_distance self) ->
  returns_float (get_mean_speed self) ->
  (exists f, get_spent_calories libm_pow self = Ok (VNum (Float f))) ->
  is_ok (main libm_pow self) = true.
Proof.
  intros Hd [x Hx] [y Hy] [c Hc]. unfold main, show_training_info.
  rewrite Hx, Hy, Hc, Hd. cbn [bind]. rewrite get_message_ok. reflexivity.
Qed.

(** X15: a running session, or a swimming session with a float pool
    length, whose duration is a positive float and whose other fields
    have float values cannot fail: every method returns and [main]
    prints its line (an infinity or a NaN is rendered as such). *)
Theorem float_session_prints
  (libm_pow : float -> float -> float * errno)
  (a w cp : num) (fd flp : float) :
  (0 <? fd)%float = true ->
  is_ok (to_float a) = true ->
  is_ok (to_float w) = true ->
  is_ok (to_float cp) = true ->
  is_ok (main libm_pow (Running a (Float fd) w)) = true
  /\ is_ok (main libm_pow (Swimming a (Float fd) w (Float flp) cp)) = true.
Proof.
  intros Hd Ha Hw Hcp.
  assert (Hz : Spec.is_zero (Float fd) = false)
    by (apply float_pos_nonzero, Hd).
  assert (Hfd : is_ok (to_float (Float fd)) = true) by reflexivity.
  split.
  - assert (Hms : returns_float
                    (get_mean_speed (Running a (Float fd) w))).
    { apply truediv_lit_returns_float; [| exact Hfd | exact Hz].
      apply get_distance_returns_float, Ha. }
    apply (main_of_floats libm_pow (Running a (Float fd) w) fd eq_refl);
      [apply get_distance_returns_float, Ha | exact Hms |].
    assert (H : returns_float
                  (Running_get_spent_calories (Running a (Float fd) w))).
    { unfold Running_get_spent_calories.
      apply mul_returns_float_l.
      - apply truediv_lit_returns_float; [| reflexivity | reflexivity].
        apply mul_returns_float_l; [| apply lit_has_value, Hw].
        apply add_returns_float; [| apply lit_returns_float].
        apply mul_returns_float_r; [| exact Hms].
        apply lit_has_value. reflexivity.
      - apply float_has_value, mul_returns_float_l;
          [apply lit_returns_float | apply lit_has_value; reflexivity]. }
    destruct H as [c Hc]. exists c. cbn [get_spent_calories].
    rewrite Hc. reflexivity.
  - assert (Hms : returns_float
                    (get_mean_speed
                       (Swimming a (Float fd) w (Float flp) cp))).
    { apply truediv_lit_returns_float; [| exact Hfd | exact Hz].
      apply truediv_lit_returns_float; [| reflexivity | reflexivity].
      apply mul_returns_float_l;
        [apply lit_returns_float | apply lit_has_value, Hcp]. }
    apply (main_of_floats libm_pow
             (Swimming a (Float fd) w (Float flp) cp) fd eq_refl);
      [apply get_distance_returns_float, Ha | exact Hms |].
    assert (H : returns_float
                  (Swimming_get_spent_calories
                     (Swimming a (Float fd) w (Float flp) cp))).
    { unfold Swimming_get_spent_calories.
      apply mul_returns_float_l; [| apply lit_has_value, Hfd].
      apply mul_returns_float_l; [| apply lit_has_value, Hw].
      apply mul_returns_float_l; [| apply lit_has_value; reflexivity].
      apply add_returns_float; [exact Hms | apply lit_returns_float]. }
    destruct H as [c Hc]. exists c. cbn [get_spent_calories].
    rewrite Hc. reflexivity.
Qed.

(* ================================================================== *)
(** * Instances *)
(* ================================================================== *)

Lemma read_package_unknown_code_witness :
  ~ In "SPR" ["SWM"; "RUN"; "WLK"]
  /\ read_package "SPR" [Int 1; Int 2; Int 3]
     = Raise (ValueError
                ["Такую тренировку мы не подготовили.Вот список доступных тренировок: ";
                 "SWM"; "RUN"; "WLK"]).
Proof.
  assert (H : ~ In "SPR" ["SWM"; "RUN"; "WLK"]).
  { simpl. intros [H | [H | [H | []]]]; discriminate H. }
  split; [exact H |].
  apply (read_package_unknown_code "SPR" [Int 1; Int 2; Int 3] H).
Defined.

Lemma get_mean_speed_formula_witness :
  Spec.positive (Int 1) = true
  /\ get_mean_speed (Running (Int 15000) (Int 1) (Int 75))
     = Ok (Float 9.75)
  /\ get_mean_speed (Swimming (Int 720) (Int 1) (Int 80) (Int 25) (Int 40))
     = Ok (Float 1).
Proof.
  split; [reflexivity |].
  destruct (get_mean_speed_formula
              (Int 15000) (Int 1) (Int 75) (Int 180) (Int 25) (Int 40)
              eq_refl) as (Hdefault & _ & _ & _).
  destruct (Hdefault (Running (Int 15000) (Int 1) (Int 75))
              (or_introl eq_refl)) as [_ ->].
  split; reflexivity.
Defined.

Lemma Running_get_spent_calories_formula_witness :
  Spec.positive (Int 1) = true
  /\ get_spent_calories ref_pow (Running (Int 15000) (Int 1) (Int 75))
     = Ok (VNum (Float 797.805)).
Proof.
  split; [reflexivity |].
  destruct (Running_get_spent_calories_formula
              ref_pow (Int 15000) (Int 1) (Int 75) eq_refl) as (-> & _).
  reflexivity.
Defined.

Lemma Swimming_get_spent_calories_formula_witness :
  Spec.positive (Int 1) = true
  /\ get_spent_calories ref_pow
       (Swimming (Int 720) (Int 1) (Int 80) (Int 25) (Int 40))
     = Ok (VNum (Float 336)).
Proof.
  split; [reflexivity |].
  destruct (Swimming_get_spent_calories_formula
              ref_pow (Int 720) (Int 1) (Int 80) (Int 25) (Int 40) eq_refl)
    as (-> & _).
  reflexivity.
Defined.

Lemma SportsWalking_get_spent_calories_formula_witness :
  Spec.positive (Int 1) = true
  /\ Spec.height_divides (Int 180) = true
  /\ get_spent_calories ref_pow
       (SportsWalking (Int 9000) (Int 1) (Int 75) (Int 180))
     = Ok (VNum (Float 349.2517475250001)).
Proof.
  split; [reflexivity |]. split; [reflexivity |].
  destruct (SportsWalking_get_spent_calories_formula
              ref_pow (Int 9000) (Int 1) (Int 75) (Int 180) eq_refl eq_refl)
    as (-> & _).
  reflexivity.
Defined.

Lemma SportsWalking_zero_height_witness :
  Spec.is_zero (Int 0) = true
  /\ Spec.positive (Int 1) = true
  /\ get_spent_calories ref_pow
       (SportsWalking (Int 9000) (Int 1) (Int 75) (Int 0))
     = Raise ZeroDivisionError.
Proof.
  split; [reflexivity |]. split; [reflexivity |].
  destruct (SportsWalking_zero_height
              ref_pow (Int 9000) (Int 1) (Int 75) (Int 0) eq_refl)
    as (_ & H & _).
  eapply H; reflexivity.
Defined.

Lemma get_message_template_witness :
  Spec.finite_number (InfoMessage.duration running_report) = true
  /\ Spec.finite_number (InfoMessage.distance running_report) = true
  /\ Spec.finite_number (InfoMessage.speed running_report) = true
  /\ Spec.finite_number (InfoMessage.calories running_report) = true
  /\ exists duration distance speed calories : string,
       Spec.renders_fixed3 (InfoMessage.duration running_report) duration
       /\ Spec.renders_fixed3 (InfoMessage.distance running_report) distance
       /\ Spec.renders_fixed3 (InfoMessage.speed running_report) speed
       /\ Spec.renders_fixed3 (InfoMessage.calories running_report) calories
       /\ InfoMessage.get_message running_report
          = Ok ("Тип тренировки: "
                ++ InfoMessage.training_type running_report
                ++ "; Длительность: " ++ duration
                ++ " ч.; Дистанция: " ++ distance
                ++ " км; Ср. скорость: " ++ speed
                ++ " км/ч; Потрачено ккал: " ++ calories ++ ".").
Proof.
  repeat (split; [reflexivity |]).
  apply (get_message_template running_report); reflexivity.
Defined.

Lemma read_package_wrong_arity_witness :
  In ("RUN", 3%nat) field_counts
  /\ List.length [Int 15000; Int 1] <> 3%nat
  /\ read_package "RUN" [Int 15000; Int 1] = Raise TypeError.
Proof.
  assert (Hin : In ("RUN", 3%nat) field_counts)
    by (right; left; reflexivity).
  assert (Hlen : List.length [Int 15000; Int 1] <> 3%nat)
    by (intros H; discriminate H).
  split; [exact Hin |]. split; [exact Hlen |].
  apply (read_package_wrong_arity "RUN" 3 [Int 15000; Int 1] Hin Hlen).
Defined.

Lemma read_package_injective_witness :
  read_package "RUN" [Int 15000; Int 1; Int 75] = Ok running_sample
  /\ "RUN" = "RUN"
  /\ [Int 15000; Int 1; Int 75] = [Int 15000; Int 1; Int 75].
Proof.
  split; [reflexivity |].
  apply (read_package_injective "RUN" "RUN"
           [Int 15000; Int 1; Int 75] [Int 15000; Int 1; Int 75]
           running_sample eq_refl eq_refl).
Defined.

Lemma read_package_calories_float_witness :
  read_package "RUN" [Int 15000; Int 1; Int 75] = Ok running_sample
  /\ get_spent_calories ref_pow running_sample
     = Ok (VNum (Float 797.805))
  /\ is_base running_sample = false
  /\ exists f, VNum (Float 797.805) = VNum (Float f).
Proof.
  split; [reflexivity |]. split; [reflexivity |].
  apply (read_package_calories_float ref_pow "RUN"
           [Int 15000; Int 1; Int 75] running_sample
           (VNum (Float 797.805)) eq_refl eq_refl).
Defined.

Lemma get_mean_speed_zero_duration_witness :
  Spec.is_zero (Int 0) = true
  /\ get_mean_speed (Running (Int 15000) (Int 0) (Int 75))
     = Raise ZeroDivisionError.
Proof.
  split; [reflexivity |].
  rewrite (get_mean_speed_zero_duration
             (Running (Int 15000) (Int 0) (Int 75)) eq_refl).
  reflexivity.
Defined.

Lemma zero_duration_aborts_witness :
  Spec.is_zero (Float 0) = true
  /\ is_ok (main ref_pow
              (Swimming (Int 720) (Float 0) (Int 80) (Int 25) (Int 40)))
     = false.
Proof.
  split; [reflexivity |].
  apply (zero_duration_aborts ref_pow
           (Swimming (Int 720) (Float 0) (Int 80) (Int 25) (Int 40))
           eq_refl).
Defined.


Lemma zero_action_zero_distance_witness :
  Spec.is_zero (Int 0) = true
  /\ exists f, get_distance (Running (Int 0) (Int 1) (Int 75))
               = Ok (Float f)
               /\ Spec.is_zero (Float f) = true.
Proof.
  split; [reflexivity |].
  apply (zero_action_zero_distance
           (Running (Int 0) (Int 1) (Int 75)) eq_refl).
Defined.

Lemma float_session_prints_witness :
  (0 <? 1.5)%float = true
  /\ is_ok (to_float (Int 15000)) = true
  /\ is_ok (to_float (Float 75.5)) = true
  /\ is_ok (to_float (Int 40)) = true
  /\ is_ok (main ref_pow (Running (Int 15000) (Float 1.5) (Float 75.5)))
     = true
  /\ is_ok (main ref_pow
              (Swimming (Int 15000) (Float 1.5) (Float 75.5)
                 (Float 25) (Int 40)))
     = true.
Proof.
  repeat (split; [reflexivity |]).
  apply (float_session_prints ref_pow (Int 15000) (Float 75.5) (Int 40)
           1.5 25 eq_refl eq_refl eq_refl eq_refl).
Defined.
